(** * A shallow embedding of the normal-distribution app

    Sources: [services/data.service.ts] (the paginated fetch engine),
    [utils/statistics.ts] (statistics and the fitted curve) and
    [services/chart.service.ts] ([getDataAndDraw]).

    Numbers of the statistics module are IEEE binary64 values, modelled with
    Rocq's primitive floats, which follow the same standard as JavaScript
    numbers.  Timestamps are epoch milliseconds ([Z]): every wire timestamp is
    only ever read back through [Date.parse], so a [Metric] carries the
    instant its ISO string denotes. *)

From Stdlib Require Import ZArith List Bool Ascii String Lia Permutation Sorted.
From Stdlib Require Import Floats Uint63.
From Stdlib Require Import Reals Lra.
From Stdlib Require Import Relation_Operators.
Import ListNotations.

Local Open Scope Z_scope.

(** ** JavaScript numeric primitives over binary64 *)
Module Js.
Local Open Scope float_scope.

(** [Number(n)] for a natural number (an array length). *)
Definition of_nat (n : nat) : float := of_uint63 (Uint63.of_Z (Z.of_nat n)).

(** [Math.PI]. *)
Definition PI : float := 0x1.921fb54442d18p+1.

(** [Math.pow(x, 2)]: for the exponent 2 engines compute [x * x]. *)
Definition pow2 (x : float) : float := x * x.

Fixpoint taylor_exp (r : float) (k : nat) (i : float) (term acc : float) : float :=
  match k with
  | O => acc
  | S k' =>
      let term' := term * r / i in
      taylor_exp r k' (i + 1) term' (acc + term')
  end.

Fixpoint square_n (k : nat) (y : float) : float :=
  match k with O => y | S k' => square_n k' (y * y) end.

(** [Math.exp]: ECMAScript fixes the special cases (NaN to NaN, +Infinity
    to +Infinity, -Infinity to +0) and leaves finite arguments
    implementation-approximated; finite arguments are evaluated here as
    [exp(x / 2^11)^(2^11)] with a Taylor polynomial, saturating outside the
    range of binary64. *)
Definition exp (x : float) : float :=
  if is_nan x then nan
  else if 710 <? x then infinity
  else if x <? -746 then zero
  else square_n 11 (taylor_exp (x / 2048) 20 1 1 1).

(** [parseFloat(x.toFixed(d))].  [toFixed] prints NaN and the infinities
    as [NaN], [Infinity], [-Infinity], which [parseFloat] reads back
    unchanged, and prints [ToString(x)] when [|x| >= 10^21], which
    [parseFloat] also reads back as [x].  Otherwise it prints the sign of a
    negative [x] and the integer [n] closest to [|x| * 10^d] (the larger one
    on a tie) with [d] decimals, so [-0] prints as [0]; [parseFloat] reads
    [n / 10^d] back rounded to the nearest double, ties to even.  For a
    finite [x = m * 2^e], [n] is computed exactly from [m] and [e]. *)
Definition toFixed_parseFloat (x : float) (d : nat) : float :=
  if is_nan x then nan
  else if is_infinity x then x
  else if 1e21 <=? abs x then x
  else
    match Prim2SF x with
    | S754_finite s m e =>
        let num := (Z.pos m * 10 ^ Z.of_nat d * 2 ^ Z.max e 0)%Z in
        let den := (2 ^ Z.max (- e) 0)%Z in
        let n := ((2 * num + den) / (2 * den))%Z in
        match n with
        | Zpos n =>
            SF2Prim (SFdiv FloatOps.prec FloatOps.emax
                       (S754_finite s n 0) (S754_finite false (Z.to_pos (10 ^ Z.of_nat d)) 0))
        | _ => if s then -0 else 0
        end
    | _ => 0
    end.
End Js.

(** ** utils/statistics.ts *)
Module Statistics.
Local Open Scope float_scope.

(** A point of the fetched series: [{ time: number; value: number }]. *)
Record SamplePoint := mkSample { stime : Z; svalue : float }.

(** [calculateStatistics]: both sums are [Array.prototype.reduce] from 0. *)
Definition calculateStatistics (data : list SamplePoint) : float * float :=
  let n := Js.of_nat (List.length data) in
  let mean := fold_left (fun acc d => acc + svalue d) data 0 / n in
  let variance :=
    fold_left (fun acc d => acc + Js.pow2 (svalue d - mean)) data 0 / n in
  let standardDeviation := PrimFloat.sqrt variance in
  (mean, standardDeviation).

(** [normalDistribution]. *)
Definition normalDistribution (x mean standardDeviation : float) : float :=
  (1 / (standardDeviation * PrimFloat.sqrt (2 * Js.PI)))
  * Js.exp (-0.5 * Js.pow2 ((x - mean) / standardDeviation)).

(** How the sampling loop or [generateNormalDistributionData] ends: it
    returns, [push] throws a RangeError (Invalid array length) because the
    array already holds [maxArrayLength] elements, or it is still looping
    when the fuel runs out. *)
Inductive run (A : Type) :=
| Finished (result : A)
| InvalidArrayLength
| StillLooping.
Arguments Finished {A}.
Arguments InvalidArrayLength {A}.
Arguments StillLooping {A}.

(** The sampling [for] loop of [generateNormalDistributionData], one
    iteration per unit of [fuel].  The bound [mean + 5 * standardDeviation]
    is re-evaluated by every test, as in the source.  [maxArrayLength] is
    the engine's largest array length: [push] on an array that already
    holds that many elements throws a RangeError (ECMAScript bounds it by
    [2^32 - 1]; V8 stops far sooner). *)
Fixpoint sample_loop (maxArrayLength : Z) (fuel : nat)
    (mean standardDeviation dataLength binSize : float)
    (x : float) (xValues yValues : list float) (maxYDistrib : float)
    : run (list float * list float * float) :=
  if x <=? mean + 5 * standardDeviation then
    match fuel with
    | O => StillLooping
    | S fuel' =>
        if (Z.of_nat (List.length xValues) <? maxArrayLength)%Z then
          let xValues := xValues ++ [x] in
          let y := normalDistribution x mean standardDeviation * dataLength * binSize in
          if (Z.of_nat (List.length yValues) <? maxArrayLength)%Z then
            let yValues := yValues ++ [y] in
            let maxYDistrib := if maxYDistrib <? y then y else maxYDistrib in
            sample_loop maxArrayLength fuel' mean standardDeviation dataLength binSize
              (x + binSize) xValues yValues maxYDistrib
          else InvalidArrayLength
        else InvalidArrayLength
    end
  else Finished (xValues, yValues, maxYDistrib).

(** [generateNormalDistributionData]. *)
Definition generateNormalDistributionData (maxArrayLength : Z) (fuel : nat)
    (mean standardDeviation dataLength binSize maxY : float)
    : run (list (float * float)) :=
  if dataLength <=? 1 then Finished []
  else
    match sample_loop maxArrayLength fuel mean standardDeviation dataLength binSize
            (mean - 5 * standardDeviation) [] [] 0 with
    | StillLooping => StillLooping
    | InvalidArrayLength => InvalidArrayLength
    | Finished (xValues, yValues, maxYDistrib) =>
        let scaleRatio := maxY / maxYDistrib in
        let scaledYValues := map (fun y => y * scaleRatio) yValues in
        Finished (combine xValues scaledYValues)
    end.

(** [getConfidenceInterval]. *)
Definition getConfidenceInterval (mean standardDeviation zScore : float) : float * float :=
  (mean - zScore * standardDeviation, mean + zScore * standardDeviation).
End Statistics.

(** ** [calculateStatistics] read in exact real arithmetic

    The same two reductions as [Statistics.calculateStatistics], over [R]:
    the rounding of binary64 aside, this is what the code computes. *)
Module StatisticsR.
Local Open Scope R_scope.

(** [const mean = data.reduce((acc, d) => acc + d.value, 0) / n]. *)
Definition calc_mean (values : list R) : R :=
  fold_left (fun acc v => acc + v) values 0 / INR (List.length values).

(** [const variance = data.reduce((acc, d) => acc + Math.pow(d.value - mean, 2), 0) / n]. *)
Definition calc_variance (values : list R) : R :=
  let mean := calc_mean values in
  fold_left (fun acc v => acc + (v - mean) ^ 2) values 0 / INR (List.length values).

(** [calculateStatistics] returns [{ mean, standardDeviation }]. *)
Definition calculateStatistics (values : list R) : R * R :=
  (calc_mean values, sqrt (calc_variance values)).

(** The spec's reading: the arithmetic mean, and the population variance
    as the mean of the squares minus the square of the mean (divisor n). *)
Definition sumR (values : list R) : R := fold_right Rplus 0 values.

Definition spec_mean (values : list R) : R :=
  sumR values / INR (List.length values).

Definition spec_population_variance (values : list R) : R :=
  sumR (map (fun v => v ^ 2) values) / INR (List.length values)
  - (spec_mean values) ^ 2.
End StatisticsR.

(** ** [ChartService.getDataAndDraw], up to the statistics call *)
Module Chart.
Import Statistics.
Local Open Scope float_scope.

(** What [getDataAndDraw] does with the fetched series before the
    histogram: it throws, or it calls [calculateStatistics] on a list. *)
Inductive until_statistics :=
| Thrown (message : string)
| CalculateStatisticsOn (data : list SamplePoint).

(** Lines 57-71: [getAllRawMetrics] returned [data] ([None] for [null]);
    [d.value !== 0] is [negb (d.value =? 0)], which keeps NaN and drops
    both zeros. *)
Definition getDataAndDraw_until_statistics
    (data : option (list SamplePoint)) (ignoreZero : bool) : until_statistics :=
  match data with
  | None => Thrown "No data available"
  | Some [] => Thrown "No data available"
  | Some data =>
      let data :=
        if ignoreZero then filter (fun d => negb (svalue d =? 0)) data else data in
      CalculateStatisticsOn data
  end.
End Chart.

(** ** services/data.service.ts *)
Module DataService.
Import Statistics.
Local Open Scope Z_scope.

(** [Metric]: [{ time: string; values: { [key: string]: number } }]; the
    time is the epoch-millisecond instant of the ISO string. *)
Record Metric := mkMetric { time : Z; values : list (string * float) }.

(** [values[key]] ([None] for [undefined]). *)
Fixpoint lookup {V : Type} (key : string) (m : list (string * V)) : option V :=
  match m with
  | [] => None
  | (k, v) :: m' => if String.eqb k key then Some v else lookup key m'
  end.

(** [this.context.timeRange], in epoch milliseconds. *)
Record Window := mkWindow { from : Z; to : Z }.

(** [_toIXONISOString(ms)] is [new Date(ms).toISOString()] cut at the
    ['.'] with ['Z'] put back: the instant it denotes is [ms] truncated
    down to a whole second. *)
Definition _toIXONISOString (milliSeconds : Z) : Z :=
  milliSeconds / 1000 * 1000.

(** [Math.ceil(a / b)] for integers, [b > 0]. *)
Definition ceil_div (a b : Z) : Z := - (- a / b).

(** A parsed answer of the DataList endpoint: its HTTP status and
    [body.data?.points] ([None]: no [data]; [Some None]: no [points]). *)
Record Response := mkResponse { status : Z; data : option (option (list Metric)) }.

(** The answer to a count query: its points carry the count, an integer. *)
Record CountPoint := mkCountPoint { ctime : Z; cvalues : option (list (string * Z)) }.
Record CountResponse := mkCountResponse { cdata : option (option (list CountPoint)) }.

(** The DataList queries the service sends for one source and tag:
    a raw page ([limit], [offset], and [order: 'asc'] when [ascending]),
    and the one-point look-back of [_getLastPointOfPreviousPeriod]. *)
Inductive Query :=
| PageQuery (start end_ offset limit : Z) (ascending : bool)
| LastPointQuery (start end_ : Z).

(** The backend, as seen by one invocation: the answer to each data query,
    and the answer to the count query [(start, end, step)]. *)
Record Backend := mkBackend {
  dataList : Query -> Response;
  countList : Z -> Z -> Z -> CountResponse
}.

(** Outcome of an async method: its value, a thrown error, or (for the
    recursive [_getAllRawMetrics]) recursion deeper than the fuel. *)
Inductive outcome (A : Type) :=
| Ok (a : A)
| Throw (message : string)
| OutOfFuel.
Arguments Ok {A} a.
Arguments Throw {A} message.
Arguments OutOfFuel {A}.

Definition bind {A B : Type} (m : outcome A) (k : A -> outcome B) : outcome B :=
  match m with
  | Ok a => k a
  | Throw e => Throw e
  | OutOfFuel => OutOfFuel
  end.

Notation "x <- m ;; k" := (bind m (fun x => k))
  (at level 61, m at next level, right associativity).

Definition queryLimit : Z := 5000.

Definition TypeError : string := "TypeError".

(** [_getLastPointOfPreviousPeriod]: [response.data.points[0]] throws when
    [data] or [points] is missing. *)
Definition _getLastPointOfPreviousPeriod (be : Backend) (w : Window)
    : outcome (option Metric) :=
  let initialUnixTimestamp := 0 in
  let start := _toIXONISOString initialUnixTimestamp in
  let end_ := _toIXONISOString (from w) in
  let response := dataList be (LastPointQuery start end_) in
  match data response with
  | Some (Some points) =>
      match points with
      | [] => Ok None
      | lastPointOfPreviousPeriod :: _ =>
          Ok (Some (mkMetric end_ (values lastPointOfPreviousPeriod)))
      end
  | _ => Throw TypeError
  end.

(** [_getAllRawMetrics] (the sequential strategy), one recursive call per
    unit of fuel.  It reads [response.data.points] without a guard and
    ignores the status. *)
Fixpoint _getAllRawMetrics (fuel : nat) (be : Backend) (w : Window)
    (hasNext : bool) (offset : Z) (metrics : list Metric) : outcome (list Metric) :=
  match fuel with
  | O => OutOfFuel
  | S fuel' =>
      if negb hasNext then
        lastPointOfPreviousPeriod <- _getLastPointOfPreviousPeriod be w ;;
        match lastPointOfPreviousPeriod with
        | Some p => Ok (metrics ++ [p])
        | None => Ok metrics
        end
      else
        let start := _toIXONISOString (from w) in
        let end_ := _toIXONISOString (to w) in
        let response := dataList be (PageQuery start end_ offset queryLimit false) in
        match data response with
        | Some (Some points) =>
            let metrics := metrics ++ points in
            let offset := offset + queryLimit in
            let hasNext := Z.of_nat (List.length points) =? queryLimit in
            _getAllRawMetrics fuel' be w hasNext offset metrics
        | _ => Throw TypeError
        end
  end.

(** What [_fetchRawDataPage] does, in order: a request, or a sleep. *)
Inductive Event :=
| Fetch (offset limit : Z)
| Sleep (ms : Z).

(** [_fetchRawDataPage]: [answer k] is the response to the [k]-th sending
    of the request.  Returns the log of requests and sleeps, and
    [data.data?.points || []]. *)
Fixpoint _fetchRawDataPage (answer : nat -> Response) (offset limit : Z)
    (retries : nat) : list Event * list Metric :=
  let response := answer O in
  let points := match data response with Some (Some pts) => pts | _ => [] end in
  if (status response =? 429) && (0 <? retries)%nat then
    let backoffMs := (4 - Z.of_nat retries) * 1000 in
    match retries with
    | O => ([Fetch offset limit], points)
    | S retries' =>
        let '(log, result) :=
          _fetchRawDataPage (fun k => answer (S k)) offset limit retries' in
        (Fetch offset limit :: Sleep backoffMs :: log, result)
    end
  else ([Fetch offset limit], points).

(** A page of the parallel strategy against a backend that answers the
    same request the same way each time, with the default 3 retries. *)
Definition fetch_page (be : Backend) (w : Window) (offset limit : Z) : list Metric :=
  let start := _toIXONISOString (from w) in
  let end_ := _toIXONISOString (to w) in
  snd (_fetchRawDataPage (fun _ => dataList be (PageQuery start end_ offset limit true))
         offset limit 3).

(** [_getTotalCount]: [response.data?.points?.[0]?.values?.[tagSlug] || 0];
    a missing count and a count of 0 both give 0. *)
Definition _getTotalCount (be : Backend) (w : Window) (tagSlug : string) : Z :=
  let start := _toIXONISOString (from w) in
  let end_ := _toIXONISOString (to w) in
  let timeRangeDurationSeconds := ceil_div (to w - from w) 1000 in
  let response := countList be start end_ timeRangeDurationSeconds in
  let count :=
    match cdata response with
    | Some (Some (p :: _)) =>
        match cvalues p with Some vs => lookup tagSlug vs | None => None end
    | _ => None
    end in
  match count with Some c => c | None => 0 end.

(** [Array.prototype.sort] with comparator [Date.parse(a.time) -
    Date.parse(b.time)]: a stable sort by time, here insertion sort (a
    stable sort has one possible result). *)
Fixpoint insert_by_time (m : Metric) (l : list Metric) : list Metric :=
  match l with
  | [] => [m]
  | h :: t => if time m <=? time h then m :: h :: t else h :: insert_by_time m t
  end.

Definition sort_by_time (l : list Metric) : list Metric :=
  fold_right insert_by_time [] l.

(** [_getAllRawMetricsParallel] (the count-prefetch strategy, the default).
    The pages go through [_fetchWithConcurrencyLimit], whose slot [i] holds
    page [i] (see [Scheduler]); progress callbacks are left out. *)
Definition _getAllRawMetricsParallel (be : Backend) (w : Window) (tagSlug : string)
    : outcome (list Metric) :=
  let totalCount := _getTotalCount be w tagSlug in
  if totalCount =? 0 then
    lastPoint <- _getLastPointOfPreviousPeriod be w ;;
    Ok (match lastPoint with Some p => [p] | None => [] end)
  else if totalCount <=? queryLimit then
    let data := fetch_page be w 0 queryLimit in
    lastPoint <- _getLastPointOfPreviousPeriod be w ;;
    Ok (match lastPoint with Some p => data ++ [p] | None => data end)
  else
    let pagesNeeded := ceil_div totalCount queryLimit in
    let results :=
      map (fun i => fetch_page be w (Z.of_nat i * queryLimit) queryLimit)
          (seq 0 (Z.to_nat pagesNeeded)) in
    let allMetrics := List.concat results in
    lastPoint <- _getLastPointOfPreviousPeriod be w ;;
    let allMetrics :=
      match lastPoint with Some p => allMetrics ++ [p] | None => allMetrics end in
    Ok (sort_by_time allMetrics).

(** [isNaN(x)] on [x.values[tagSlug]]: [isNaN(undefined)] is true. *)
Definition isNaN (v : option float) : bool :=
  match v with None => true | Some v => is_nan v end.

(** The conversion at the end of [getAllRawMetrics]. *)
Definition to_samples (tagSlug : string) (factor : float) (decimals : nat)
    (all : list Metric) : list SamplePoint :=
  map (fun d : Z * option float =>
         mkSample (fst d)
           (match snd d with
            | Some v => Js.toFixed_parseFloat (v * factor)%float decimals
            | None => nan
            end))
    (filter (fun d : Z * option float => negb (isNaN (snd d)))
       (map (fun x => (time x, lookup tagSlug (values x))) all)).

(** [getAllRawMetrics]: the resolution of the data source and tag (agent,
    sources, tags) is the host's; [sourceId] is its outcome ([None]: not
    found, and the method returns [null]). *)
Definition getAllRawMetrics (be : Backend) (w : Window) (sourceId : option string)
    (tagSlug : string) (factor : float) (decimals : nat)
    : outcome (option (list SamplePoint)) :=
  match sourceId with
  | None => Ok None
  | Some _ =>
      allMetricsOfTagSlug <- _getAllRawMetricsParallel be w tagSlug ;;
      Ok (Some (to_samples tagSlug factor decimals allMetricsOfTagSlug))
  end.
End DataService.

(** ** [_fetchWithConcurrencyLimit] as a transition system

    The loop and the tasks interleave at their [await]s: a task may settle
    at any moment, in any order.  A state of the loop records the index [i]
    of the next task, the keys of the in-flight registry [executing] (a
    [Map<number, Promise>], kept as the list of its keys in insertion
    order), the [results] array ([None] for a hole), the indices of the
    tasks started so far, in the order [task()] was called, and whether the
    loop is parked on [Promise.race].  [out k] is the value task [k]
    resolves to; a task's settling runs [results[index] = result] and
    [executing.delete(index)] in one continuation. *)
Module Scheduler.

Record loop_state (T : Type) := mkLoop {
  i : nat;
  executing : list nat;
  results : list (option T);
  started : list nat;
  racing : bool
}.
Arguments mkLoop {T}.
Arguments i {T}.
Arguments executing {T}.
Arguments results {T}.
Arguments started {T}.
Arguments racing {T}.

Inductive sched_state (T : Type) :=
| Running (s : loop_state T)
| Returned (results : list (option T)).
Arguments Running {T}.
Arguments Returned {T}.

(** [results[index] = result]: in range, an update in place. *)
Fixpoint set_nth {A : Type} (l : list A) (k : nat) (v : A) : list A :=
  match l, k with
  | [], _ => []
  | _ :: t, O => v :: t
  | h :: t, S k' => h :: set_nth t k' v
  end.

(** [new Array(tasks.length)], an empty registry, before the loop. *)
Definition init {T : Type} (ntasks : nat) : sched_state T :=
  Running (mkLoop 0 [] (repeat None ntasks) [] false).

Inductive step {T : Type} (ntasks maxConcurrent : nat) (out : nat -> T)
    : sched_state T -> sched_state T -> Prop :=
(** One loop iteration: start task [i], register it, and park on
    [Promise.race] when [executing.size >= maxConcurrent]. *)
| step_start : forall s,
    racing s = false ->
    (i s < ntasks)%nat ->
    step ntasks maxConcurrent out (Running s)
      (Running (mkLoop (S (i s)) (executing s ++ [i s]) (results s)
                  (started s ++ [i s])
                  (Nat.leb maxConcurrent (List.length (executing s ++ [i s])))))
(** Task [k] settles: its slot is written, its key deleted, and a pending
    [Promise.race] is resolved. *)
| step_settle : forall s k,
    In k (executing s) ->
    step ntasks maxConcurrent out (Running s)
      (Running (mkLoop (i s) (remove Nat.eq_dec k (executing s))
                  (set_nth (results s) k (Some (out k))) (started s) false))
(** After the loop, [Promise.all] over an empty registry: return. *)
| step_return : forall s,
    racing s = false ->
    i s = ntasks ->
    executing s = [] ->
    step ntasks maxConcurrent out (Running s) (Returned (results s)).

Inductive reachable {T : Type} (ntasks maxConcurrent : nat) (out : nat -> T)
    : sched_state T -> Prop :=
| reach_init : reachable ntasks maxConcurrent out (init ntasks)
| reach_step : forall s s',
    reachable ntasks maxConcurrent out s ->
    step ntasks maxConcurrent out s s' ->
    reachable ntasks maxConcurrent out s'.

(** The guarantees of the claim on one state. *)
Definition guarantees {T : Type} (ntasks maxConcurrent : nat) (out : nat -> T)
    (st : sched_state T) : Prop :=
  match st with
  | Running s =>
      (List.length (executing s) <= maxConcurrent)%nat /\
      started s = seq 0 (i s) /\
      (forall k v, nth_error (results s) k = Some (Some v) -> v = out k)
  | Returned r => r = map (fun k => Some (out k)) (seq 0 ntasks)
  end.

(** The inductive invariant behind [guarantees]. *)
Definition inv {T : Type} (ntasks maxConcurrent : nat) (out : nat -> T)
    (st : sched_state T) : Prop :=
  match st with
  | Running s =>
      List.length (results s) = ntasks /\
      (i s <= ntasks)%nat /\
      started s = seq 0 (i s) /\
      (forall k, In k (executing s) -> (k < i s)%nat) /\
      (forall k, (k < i s)%nat -> ~ In k (executing s) ->
                 nth_error (results s) k = Some (Some (out k))) /\
      (forall k v, nth_error (results s) k = Some (Some v) -> v = out k) /\
      (List.length (executing s) <= maxConcurrent)%nat /\
      (racing s = false -> (List.length (executing s) < maxConcurrent)%nat)
  | Returned r => r = map (fun k => Some (out k)) (seq 0 ntasks)
  end.
End Scheduler.

(** ** A synthetic backend: a fixed point set under offset/limit paging *)
Module Synthetic.
Import DataService.

(** [points] are the window's points in the backend's order; [before] is
    the answer to the look-back query. *)
Definition backend (tagSlug : string) (points before : list Metric) : Backend :=
  mkBackend
    (fun q =>
       match q with
       | PageQuery _ _ offset limit _ =>
           mkResponse 200
             (Some (Some (firstn (Z.to_nat limit) (skipn (Z.to_nat offset) points))))
       | LastPointQuery _ _ => mkResponse 200 (Some (Some before))
       end)
    (fun _ _ _ =>
       mkCountResponse
         (Some (Some [mkCountPoint 0 (Some [(tagSlug, Z.of_nat (List.length points))])]))).

(** The back-fill point the synthetic backend yields for a window. *)
Definition backfill (w : Window) (before : list Metric) : list Metric :=
  match before with
  | [] => []
  | p :: _ => [mkMetric (_toIXONISOString (from w)) (values p)]
  end.

(** [n] points of one tag, one second apart from [t0]. *)
Definition series (tagSlug : string) (t0 : Z) (n : nat) : list Metric :=
  map (fun k => mkMetric (t0 + 1000 * Z.of_nat k) [(tagSlug, 1%float)]) (seq 0 n).
End Synthetic.

(** ** Readings of a returned series *)
Module Checks.
Import DataService.

(** [if (lastPoint) push(lastPoint)]: the back-fill as a list. *)
Definition opt_list (o : option Metric) : list Metric :=
  match o with Some p => [p] | None => [] end.

(** Whether the times of a series strictly increase. *)
Fixpoint strictly_ascending (l : list Metric) : bool :=
  match l with
  | a :: ((b :: _) as t) => (time a <? time b) && strictly_ascending t
  | _ => true
  end.

(** A backend whose count query says 10001 while each page holds one
    point, later pages holding earlier times, and whose look-back finds
    one point. *)
Definition paged_backend (tagSlug : string) : Backend :=
  mkBackend
    (fun q =>
       match q with
       | PageQuery _ _ offset _ _ =>
           mkResponse 200 (Some (Some [mkMetric (20000 - offset) [(tagSlug, 1%float)]]))
       | LastPointQuery _ _ =>
           mkResponse 200 (Some (Some [mkMetric 0 [(tagSlug, 2%float)]]))
       end)
    (fun _ _ _ =>
       mkCountResponse (Some (Some [mkCountPoint 0 (Some [(tagSlug, 10001)])]))).

(** A count query whose answer has no [data]. *)
Definition count_without_data : Backend :=
  mkBackend (fun _ => mkResponse 200 (Some (Some []))) (fun _ _ _ => mkCountResponse None).

(** Non-decreasing time. *)
Definition time_le (a b : Metric) : Prop := time a <= time b.
End Checks.

(** ** The string handling of [data.service.ts] *)
Module JsString.
Local Open Scope string_scope.

(** [s.split(separator)] for a non-empty [separator]: the pieces between
    the leftmost non-overlapping occurrences, scanned from the left.
    [skip] counts the characters of a found occurrence still to be passed,
    [cur] is the piece being read. *)
Fixpoint split_go (separator s : string) (skip : nat) (cur : string) : list string :=
  match s with
  | EmptyString => [cur]
  | String c s' =>
      match skip with
      | S k => split_go separator s' k cur
      | O =>
          if prefix separator s
          then cur :: split_go separator s' (String.length separator - 1) ""
          else split_go separator s' O (cur ++ String c "")
      end
  end.

Definition split (s separator : string) : list string := split_go separator s O "".

(** The double-quote character. *)
Definition quote : string := String "034"%char EmptyString.
End JsString.

(** Lines 58-62 of [getAllRawMetrics]: the tag and source slugs read off
    the selector ([None] for [undefined]).  [split] never returns an empty
    array, so [[0]] is always a string. *)
Module Selector.
Local Open Scope string_scope.

Definition tagSlug (selector : string) : option string :=
  nth_error (JsString.split selector ".tag.") 1.

Definition sourceSlug (selector : string) : option string :=
  nth_error (JsString.split (hd "" (JsString.split selector ".tag.")) "Agent#selected:") 1.
End Selector.

(** [_getFilters]: [kwargs.map(...).join(...)] inside a template. *)
Module Filters.
Local Open Scope string_scope.

Record FilterArg := mkFilterArg { property : string; values : list string }.

(** One [in] clause: the property, a comma, then the values joined by
    quote-comma-quote and wrapped in double quotes. *)
Definition filter_arg (x : FilterArg) : string :=
  property x ++ "," ++ JsString.quote
  ++ String.concat (JsString.quote ++ "," ++ JsString.quote) (values x)
  ++ JsString.quote.

Definition _getFilters (kwargs : list FilterArg) : string :=
  match kwargs with
  | [] => ""
  | _ => "&filters=in(" ++ String.concat ")&filters=in(" (map filter_arg kwargs) ++ ")"
  end.
End Filters.

(** ** [getDataAndDraw] from the statistics to the fitted curve *)
Module ChartDraw.
Import Statistics.
Local Open Scope float_scope.

(** [Array.prototype.sort(cmp)] as a stable insertion sort: [x] goes after
    [h] only when [cmp(x, h) > 0] (a NaN result counts as 0).  The
    comparators below are consistent on the values that reach them (no NaN
    value passes the fetch's [isNaN] filter), so every stable sort agrees
    with this one. *)
Fixpoint insert_by {A : Type} (cmp : A -> A -> float) (x : A) (l : list A) : list A :=
  match l with
  | [] => [x]
  | h :: t => if 0 <? cmp x h then h :: insert_by cmp x t else x :: h :: t
  end.

Definition sort_by {A : Type} (cmp : A -> A -> float) (l : list A) : list A :=
  fold_right (insert_by cmp) [] l.

(** The key equality of a [Map]: SameValueZero (NaN equals NaN, and the
    two zeros are equal). *)
Definition sameValueZero (a b : float) : bool := (is_nan a && is_nan b) || (a =? b).

(** A [Map<number, number>] as its entries in insertion order; the counts
    are integers far below [2^53], kept as [nat]. *)
Fixpoint map_get (m : list (float * nat)) (key : float) : option nat :=
  match m with
  | [] => None
  | (k, v) :: m' => if sameValueZero k key then Some v else map_get m' key
  end.

(** [Map.prototype.set]: an existing key keeps its place; a new key is
    appended, [-0] stored as [+0]. *)
Fixpoint map_set (m : list (float * nat)) (key : float) (value : nat) : list (float * nat) :=
  match m with
  | [] => [(if key =? 0 then 0 else key, value)]
  | (k, v) :: m' =>
      if sameValueZero k key then (k, value) :: m' else (k, v) :: map_set m' key value
  end.

(** Lines 79-85: [valueCounts.set(value, (valueCounts.get(value) || 0) + 1)]
    for each point, in the order of [data]. *)
Definition valueCounts (data : list SamplePoint) : list (float * nat) :=
  fold_left
    (fun m point =>
       let value := svalue point in
       map_set m value (match map_get m value with Some c => c | None => O end + 1)%nat)
    data [].

(** Lines 74-95: [data] sorted by value, counted, and the [[value, count]]
    pairs sorted by value. *)
Definition histogramData (data : list SamplePoint) : list (float * nat) :=
  let data := sort_by (fun a b => svalue a - svalue b) data in
  sort_by (fun a b => fst a - fst b) (valueCounts data).

(** [Math.max(...values)]: [-Infinity] for no value, NaN as soon as one
    value is NaN, and [+0] above [-0]. *)
Definition math_max (l : list float) : float :=
  fold_left
    (fun highest number =>
       if is_nan highest || is_nan number then nan
       else if (highest <? number)
               || ((number =? 0) && (highest =? 0) && (0 <? 1 / number) && (1 / highest <? 0))
       then number else highest)
    l neg_infinity.

(** How [getDataAndDraw] gets past line 112: it throws before the
    statistics, throws [`Not enough data available, mean = ${mean}`]
    (kept as the mean), is still in the sampling loop after [fuel]
    iterations, or goes on to draw. *)
Inductive draw_outcome :=
| DrawThrown (message : string)
| NotEnoughData (mean : float)
| LoopRunning
| Draw (mean standardDeviation : float) (histogram : list (float * nat))
       (maxY : float) (normalData : list (float * float)).

(** Lines 57-112. *)
Definition getDataAndDraw_until_draw (maxArrayLength : Z) (fuel : nat)
    (data : option (list SamplePoint)) (ignoreZero : bool) : draw_outcome :=
  match Chart.getDataAndDraw_until_statistics data ignoreZero with
  | Chart.Thrown message => DrawThrown message
  | Chart.CalculateStatisticsOn data =>
      let '(mean, standardDeviation) := calculateStatistics data in
      let histogram := histogramData data in
      let binSize := standardDeviation / 2 in
      let maxY := math_max (map (fun d => Js.of_nat (snd d)) histogram) in
      match generateNormalDistributionData maxArrayLength fuel mean standardDeviation
              (Js.of_nat (List.length data)) binSize maxY with
      | StillLooping => LoopRunning
      | InvalidArrayLength => DrawThrown "Invalid array length"
      | Finished [] => NotEnoughData mean
      | Finished normalData => Draw mean standardDeviation histogram maxY normalData
      end
  end.
End ChartDraw.

(** ** Backends and logs used to state properties of the fetch engine *)
Module Scenarios.
Import DataService.

(** The log of [_fetchRawDataPage] after the first request when [k] more
    requests follow, [retries] being the count left: a sleep of
    [(4 - retries) * 1000] ms, then the request again. *)
Fixpoint retry_log (offset limit : Z) (retries k : nat) : list Event :=
  match k with
  | O => []
  | S k' =>
      Sleep ((4 - Z.of_nat retries) * 1000) :: Fetch offset limit
        :: retry_log offset limit (retries - 1) k'
  end.

(** The points of an answer, as [_fetchRawDataPage] returns them. *)
Definition points_of (r : Response) : list Metric :=
  match data r with Some (Some pts) => pts | _ => [] end.

(** The synthetic backend of [Synthetic], with a count query answering
    [count] whatever the number of points. *)
Definition counted_backend (tagSlug : string) (points before : list Metric) (count : Z)
    : Backend :=
  mkBackend (dataList (Synthetic.backend tagSlug points before))
    (fun _ _ _ => mkCountResponse (Some (Some [mkCountPoint 0 (Some [(tagSlug, count)])]))).

(** A backend whose every page holds [queryLimit] copies of one point. *)
Definition full_page_backend (p : Metric) : Backend :=
  mkBackend
    (fun q =>
       match q with
       | PageQuery _ _ _ _ _ => mkResponse 200 (Some (Some (repeat p (Z.to_nat queryLimit))))
       | LastPointQuery _ _ => mkResponse 200 (Some (Some []))
       end)
    (fun _ _ _ => mkCountResponse None).
End Scenarios.

(** ** Keys of the histogram's [Map]

    SameValueZero compares two numbers by their IEEE value with both zeros
    identified; [svkey] maps a number to that class, so that two numbers are
    the same [Map] key exactly when their [svkey]s are equal. *)
Module HistogramKeys.
Import Statistics ChartDraw.

Definition zkey (x : spec_float) : spec_float :=
  match x with S754_zero _ => S754_zero false | _ => x end.

Definition svkey (a : float) : spec_float := zkey (Prim2SF a).

Definition is_S754_nan (x : spec_float) : {x = S754_nan} + {x <> S754_nan}.
Proof. destruct x; [right; discriminate|right; discriminate|left; reflexivity|right; discriminate]. Defined.

(** The key class of a [[value, count]] entry. *)
Definition K (e : float * nat) : spec_float := svkey (fst e).

(** How many points of [ps] have a value SameValueZero-equal to [x]. *)
Definition cnt (ps : list SamplePoint) (x : float) : nat :=
  List.length (filter (fun p => sameValueZero x (svalue p)) ps).

(** One iteration of the [forEach] of lines 79-85. *)
Definition count_step (m : list (float * nat)) (point : SamplePoint) : list (float * nat) :=
  let value := svalue point in
  map_set m value (match map_get m value with Some c => c | None => O end + 1)%nat.

(** What the [Map] holds after the points [ps]: one entry per key class,
    each counting its points, every point counted. *)
Definition counts_inv (m : list (float * nat)) (ps : list SamplePoint) : Prop :=
  NoDup (map K m) /\
  (forall e, In e m -> snd e = cnt ps (fst e) /\ (1 <= snd e)%nat) /\
  (forall p, In p ps -> exists e, In e m /\ K e = svkey (svalue p)) /\
  list_sum (map snd m) = List.length ps.
End HistogramKeys.

(** ** The sampling grid of [generateNormalDistributionData]

    The points [x, x + binSize, (x + binSize) + binSize, ...] the sampling
    loop walks through, [k] of them, each sum rounded as the loop rounds it;
    and the running maximum [maxYDistrib] the loop keeps. *)
Module Grid.
Import Statistics.
Local Open Scope float_scope.

Fixpoint grid (x binSize : float) (k : nat) : list float :=
  match k with
  | O => []
  | S k' => x :: grid (x + binSize) binSize k'
  end.

Definition running_max (ys : list float) (start : float) : float :=
  fold_left (fun maxYDistrib y => if maxYDistrib <? y then y else maxYDistrib) ys start.
End Grid.

(** ** Lines 64-74 of [getAllRawMetrics]: which data source is read

    The host's answers to [_getDataSources] and [_getTags] are lists of
    records; [sources.find(...)] is truthy when a source is found, and
    [!sourceId] also rejects the empty string. *)
Module SourceResolution.
Local Open Scope string_scope.

Record DataSource := mkDataSource {
  ds_agentId : string; ds_publicId : string; ds_slug : string }.

Record Tag := mkTag {
  tag_agentId : string; tag_sourceId : string; tag_slug : string }.

Definition resolveSourceId (sources : list DataSource) (tags : list Tag) (tagSlug : string)
    : option string :=
  let filteredTags :=
    filter (fun tag =>
              match find (fun source => String.eqb (ds_publicId source) (tag_sourceId tag))
                      sources with
              | Some _ => true
              | None => false
              end) tags in
  match find (fun x => String.eqb (tag_slug x) tagSlug) filteredTags with
  | Some x => let sourceId := tag_sourceId x in
              if String.eqb sourceId "" then None else Some sourceId
  | None => None
  end.
End SourceResolution.

(** * Properties *)

(** ** Lemmas on the reductions of [calculateStatistics] *)
Module StatisticsFacts.
Import StatisticsR.
Local Open Scope R_scope.

Lemma fold_left_sum : forall (l : list R) (a : R),
  fold_left (fun acc v => acc + v) l a = a + sumR l.
Proof.
  induction l as [|v l IH]; intros a; simpl.
  - ring.
  - rewrite IH. ring.
Qed.

Lemma fold_left_squares : forall (m : R) (l : list R) (a : R),
  fold_left (fun acc v => acc + (v - m) ^ 2) l a =
  a + sumR (map (fun v => v ^ 2) l) - 2 * m * sumR l + INR (List.length l) * m ^ 2.
Proof.
  intros m; induction l as [|v l IH]; intros a; simpl List.length.
  - simpl. ring.
  - simpl fold_left. rewrite IH. rewrite S_INR. simpl. ring.
Qed.

Lemma length_INR_neq_0 : forall l : list R, l <> [] -> INR (List.length l) <> 0.
Proof.
  intros [|v l] H; [contradiction|].
  apply not_0_INR. simpl. discriminate.
Qed.

Lemma calc_mean_spec : forall l, calc_mean l = spec_mean l.
Proof.
  intros l. unfold calc_mean, spec_mean. rewrite fold_left_sum. f_equal. ring.
Qed.

Lemma calc_variance_spec : forall l, l <> [] ->
  calc_variance l = spec_population_variance l.
Proof.
  intros l Hne. pose proof (length_INR_neq_0 l Hne) as Hn.
  unfold calc_variance, spec_population_variance.
  rewrite fold_left_squares, calc_mean_spec. unfold spec_mean.
  field. exact Hn.
Qed.
End StatisticsFacts.

Import DataService.

(** ** C3 *)

(** C3: against a backend that answers every sending of the request with a
    429, [_fetchRawDataPage] (default 3 retries) sends the request 4 times,
    sleeping 1000, 2000 and 3000 ms before the three retries, and then
    returns the points of the last answer ([[]] when it has none), without
    an error. *)
Theorem C3_fetchRawDataPage_rate_limited :
  forall (answer : nat -> Response) (offset limit : Z),
    (forall k, status (answer k) = 429) ->
    _fetchRawDataPage answer offset limit 3 =
      ([Fetch offset limit; Sleep 1000; Fetch offset limit; Sleep 2000;
        Fetch offset limit; Sleep 3000; Fetch offset limit],
       match data (answer 3%nat) with Some (Some pts) => pts | _ => [] end).
Proof.
  intros answer offset limit H429. simpl. rewrite !H429. reflexivity.
Qed.

Lemma C3_witness :
  (forall k, status ((fun _ : nat => mkResponse 429 None) k) = 429) /\
  _fetchRawDataPage (fun _ => mkResponse 429 None) 0 5000 3 =
    ([Fetch 0 5000; Sleep 1000; Fetch 0 5000; Sleep 2000;
      Fetch 0 5000; Sleep 3000; Fetch 0 5000], []).
Proof.
  split.
  - intros k. reflexivity.
  - exact (C3_fetchRawDataPage_rate_limited (fun _ => mkResponse 429 None) 0 5000
             (fun k => eq_refl)).
Defined.

(** ** C4 *)

(** C4 (counterexample): a count answer without [data] is not an error:
    [_getTotalCount] gives 0, and the parallel strategy returns normally
    (here with an empty series). *)
Lemma C4_counterexample :
  _getTotalCount Checks.count_without_data (mkWindow 0 60000) "t" = 0 /\
  _getAllRawMetricsParallel Checks.count_without_data (mkWindow 0 60000) "t" = Ok [].
Proof. split; reflexivity. Qed.

(** C4 (amended): when the count answer has no [data], no [points], no
    first point, no [values], or no value for the tag, [_getTotalCount]
    returns 0 and the parallel strategy takes its empty path: it fetches
    no page and returns only the back-fill point, if any. *)
Theorem C4_missing_count_defaults_to_zero :
  forall (be : Backend) (w : Window) (tagSlug : string),
    let r := countList be (_toIXONISOString (from w)) (_toIXONISOString (to w))
               (ceil_div (to w - from w) 1000) in
    (cdata r = None \/ cdata r = Some None \/ cdata r = Some (Some []) \/
     exists p ps, cdata r = Some (Some (p :: ps)) /\
       (cvalues p = None \/ exists vs, cvalues p = Some vs /\ lookup tagSlug vs = None)) ->
    _getTotalCount be w tagSlug = 0 /\
    _getAllRawMetricsParallel be w tagSlug =
      (lastPoint <- _getLastPointOfPreviousPeriod be w ;;
       Ok (match lastPoint with Some p => [p] | None => [] end)).
Proof.
  intros be w tagSlug r Hr.
  assert (H0 : _getTotalCount be w tagSlug = 0).
  { unfold _getTotalCount. fold r.
    destruct Hr as [H | [H | [H | (p & ps & H & Hv)]]]; rewrite H; try reflexivity.
    destruct Hv as [Hv | (vs & Hv & Hl)]; rewrite Hv; [reflexivity|].
    rewrite Hl. reflexivity. }
  split; [exact H0|].
  unfold _getAllRawMetricsParallel. rewrite H0. reflexivity.
Qed.

Lemma C4_witness :
  (cdata (mkCountResponse None) = None) /\
  _getTotalCount Checks.count_without_data (mkWindow 0 60000) "t" = 0.
Proof.
  split; [reflexivity|].
  exact (proj1 (C4_missing_count_defaults_to_zero Checks.count_without_data (mkWindow 0 60000) "t"
                  (or_introl eq_refl))).
Defined.

(** ** C5 *)

Section SamplingLoop.
Import Statistics.
Local Open Scope float_scope.

End SamplingLoop.




(** ** C9 *)

(** C9: for a non-empty list of values, [calculateStatistics] (read in
    exact arithmetic) returns the arithmetic mean and the square root of the
    population variance (divisor n); on [1, 2, 3, 4, 5] the mean is 3, the
    variance 2 and the standard deviation [sqrt 2], and the binary64
    evaluation of the source gives exactly [3] and [Math.sqrt(2)]. *)
Theorem C9_calculateStatistics_population :
  forall values : list R, values <> [] ->
    StatisticsR.calc_mean values = StatisticsR.spec_mean values /\
    StatisticsR.calc_variance values = StatisticsR.spec_population_variance values /\
    StatisticsR.calculateStatistics values =
      (StatisticsR.spec_mean values, sqrt (StatisticsR.spec_population_variance values)) /\
    StatisticsR.calc_mean [1; 2; 3; 4; 5]%R = 3%R /\
    StatisticsR.calc_variance [1; 2; 3; 4; 5]%R = 2%R /\
    StatisticsR.calculateStatistics [1; 2; 3; 4; 5]%R = (3%R, sqrt 2) /\
    Statistics.calculateStatistics
      [Statistics.mkSample 0 1; Statistics.mkSample 1 2; Statistics.mkSample 2 3;
       Statistics.mkSample 3 4; Statistics.mkSample 4 5] = (3%float, PrimFloat.sqrt 2).
Proof.
  intros values Hne.
  assert (Hm5 : StatisticsR.calc_mean [1; 2; 3; 4; 5]%R = 3%R).
  { unfold StatisticsR.calc_mean. simpl. field. }
  assert (Hv5 : StatisticsR.calc_variance [1; 2; 3; 4; 5]%R = 2%R).
  { unfold StatisticsR.calc_variance. rewrite Hm5. simpl. field. }
  split; [|split; [|split; [|split; [|split; [|split]]]]].
  - apply StatisticsFacts.calc_mean_spec.
  - apply StatisticsFacts.calc_variance_spec; exact Hne.
  - unfold StatisticsR.calculateStatistics.
    rewrite StatisticsFacts.calc_mean_spec, StatisticsFacts.calc_variance_spec by exact Hne.
    reflexivity.
  - exact Hm5.
  - exact Hv5.
  - unfold StatisticsR.calculateStatistics. rewrite Hm5, Hv5. reflexivity.
  - vm_compute. reflexivity.
Qed.

Lemma C9_witness :
  ([1; 2; 3; 4; 5]%R <> []) /\
  StatisticsR.calc_variance [1; 2; 3; 4; 5]%R =
    StatisticsR.spec_population_variance [1; 2; 3; 4; 5]%R.
Proof.
  assert (H : [1; 2; 3; 4; 5]%R <> []) by discriminate.
  split; [exact H|].
  exact (proj1 (proj2 (C9_calculateStatistics_population [1; 2; 3; 4; 5]%R H))).
Defined.

(** ** C10 *)

(** C10: [getDataAndDraw] checks that the fetched series is non-empty
    before the [ignoreZero] filter; a series of zeros with [ignoreZero]
    reaches [calculateStatistics] empty, where the mean is [0 / 0], NaN. *)
Theorem C10_statistics_on_empty_after_ignoreZero :
  Chart.getDataAndDraw_until_statistics (Some [Statistics.mkSample 0 0]) true =
    Chart.CalculateStatisticsOn [] /\
  is_nan (fst (Statistics.calculateStatistics [])) = true.
Proof. split; reflexivity. Qed.

(** ** C2 *)

Module SchedulerFacts.
Import Scheduler.

Lemma set_nth_length : forall {A} (l : list A) k v, List.length (set_nth l k v) = List.length l.
Proof. intros A l; induction l as [|h t IH]; intros [|k] v; simpl; auto. Qed.

Lemma set_nth_same : forall {A} (l : list A) k v,
  (k < List.length l)%nat -> nth_error (set_nth l k v) k = Some v.
Proof.
  intros A l; induction l as [|h t IH]; intros [|k] v Hk; simpl in *; try lia; auto.
  apply IH. lia.
Qed.

Lemma set_nth_other : forall {A} (l : list A) k j v,
  j <> k -> nth_error (set_nth l k v) j = nth_error l j.
Proof.
  intros A l; induction l as [|h t IH]; intros [|k] [|j] v Hne; simpl;
    try congruence; auto.
Qed.

Lemma inv_init : forall {T} ntasks maxConcurrent (out : nat -> T),
  (1 <= maxConcurrent)%nat -> inv ntasks maxConcurrent out (init ntasks).
Proof.
  intros T n m out Hm. unfold init, inv; simpl.
  split; [apply repeat_length|].
  split; [lia|]. split; [reflexivity|]. split; [intros k []|].
  split; [intros k Hk; lia|].
  split; [|split; [lia|intros _; lia]].
  intros k v Hk. destruct (Nat.lt_ge_cases k n) as [Hlt|Hge].
  - rewrite nth_error_repeat in Hk by exact Hlt. discriminate.
  - assert (Hn : nth_error (repeat (@None T) n) k = None)
      by (apply nth_error_None; rewrite repeat_length; exact Hge).
    congruence.
Qed.

Lemma inv_step : forall {T} ntasks maxConcurrent (out : nat -> T) st st',
  inv ntasks maxConcurrent out st -> step ntasks maxConcurrent out st st' ->
  inv ntasks maxConcurrent out st'.
Proof.
  intros T n m out st st' Hinv Hstep.
  destruct Hstep as [s Hr Hi | s k Hk | s Hr Hi He]; simpl in *;
    destruct Hinv as (Hlen & Hin & Hst & Hlt & Hfill & Hok & Hle & Hrace).
  - (* a task is started *)
    rewrite length_app; simpl.
    specialize (Hrace Hr).
    split; [exact Hlen|]. split; [lia|].
    split; [rewrite Hst; transitivity (seq 0 (S (i s))); [rewrite seq_S; reflexivity|reflexivity]|].
    split; [intros j Hj; apply in_app_or in Hj as [Hj|[Hj|[]]]; [specialize (Hlt j Hj); lia|lia]|].
    split.
    { intros j Hj Hnot. apply Hfill.
      - destruct (Nat.eq_dec j (i s)) as [->|Hne].
        + exfalso. apply Hnot. apply in_or_app. right. left. reflexivity.
        + lia.
      - intros Hin'. apply Hnot. apply in_or_app. left. exact Hin'. }
    split; [exact Hok|]. split; [lia|].
    intros Hleb. apply Nat.leb_gt in Hleb. rewrite ?length_app in Hleb. simpl in Hleb. lia.
  - (* task k settles *)
    pose proof (remove_length_lt Nat.eq_dec (executing s) k Hk) as Hshort.
    pose proof (Hlt k Hk) as Hki.
    split; [rewrite set_nth_length; exact Hlen|]. split; [exact Hin|].
    split; [exact Hst|].
    split; [intros j Hj; apply in_remove in Hj as [Hj _]; apply Hlt; exact Hj|].
    split.
    { intros j Hj Hnot. destruct (Nat.eq_dec j k) as [->|Hne].
      - apply set_nth_same. lia.
      - rewrite set_nth_other by exact Hne. apply Hfill; [exact Hj|].
        intros Hin'. apply Hnot. apply in_in_remove; assumption. }
    split.
    { intros j v Hj. destruct (Nat.eq_dec j k) as [->|Hne].
      - rewrite set_nth_same in Hj by lia. congruence.
      - rewrite set_nth_other in Hj by exact Hne. apply Hok. exact Hj. }
    split; [lia|]. intros _. lia.
  - (* the loop returns *)
    apply nth_error_ext. intros j.
    rewrite nth_error_map, nth_error_seq.
    destruct (Nat.ltb j n) eqn:Hj.
    + apply Nat.ltb_lt in Hj. simpl. apply Hfill; [lia|]. rewrite He. intros [].
    + apply Nat.ltb_ge in Hj. apply nth_error_None. lia.
Qed.

Lemma inv_reachable : forall {T} ntasks maxConcurrent (out : nat -> T) st,
  (1 <= maxConcurrent)%nat -> reachable ntasks maxConcurrent out st ->
  inv ntasks maxConcurrent out st.
Proof.
  intros T n m out st Hm Hreach. induction Hreach as [|st st' _ IH Hstep].
  - apply inv_init. exact Hm.
  - eapply inv_step; eassumption.
Qed.
End SchedulerFacts.

(** C2: with [maxConcurrent >= 1], in every state [_fetchWithConcurrencyLimit]
    can reach, whatever the order in which the tasks settle, the tasks were
    started in submission order ([0, 1, ..., i-1]), the registry holds at
    most [maxConcurrent] tasks, every filled slot [k] holds task [k]'s
    result, and the returned array is exactly [[out 0, ..., out (n-1)]]. *)
Theorem C2_fetchWithConcurrencyLimit_guarantees :
  forall (T : Type) (ntasks maxConcurrent : nat) (out : nat -> T) st,
    (1 <= maxConcurrent)%nat ->
    Scheduler.reachable ntasks maxConcurrent out st ->
    Scheduler.guarantees ntasks maxConcurrent out st.
Proof.
  intros T n m out st Hm Hreach.
  pose proof (SchedulerFacts.inv_reachable n m out st Hm Hreach) as Hinv.
  destruct st as [s|r]; simpl in *.
  - destruct Hinv as (_ & _ & Hst & _ & _ & Hok & Hle & _). auto.
  - exact Hinv.
Qed.


(** A run with three tasks and at most two at once, task [k] yielding
    [10 + k]: tasks 0 and 1 start and the loop parks on the race; task 1
    settles first; task 2 starts and the loop parks again; tasks 2 and 0
    settle; the loop returns [[10, 11, 12]]. *)
Lemma C2_witness :
  (1 <= 2)%nat /\
  Scheduler.guarantees 3 2 (fun k => 10 + k)%nat
    (Scheduler.Returned [Some 10; Some 11; Some 12])%nat.
Proof.
  set (out := fun k => (10 + k)%nat).
  assert (Hm : (1 <= 2)%nat) by lia.
  assert (R : Scheduler.reachable 3 2 out
                (Scheduler.Returned [Some 10; Some 11; Some 12])%nat).
  { eapply Scheduler.reach_step;
      [|apply (Scheduler.step_return 3 2 out
                 (Scheduler.mkLoop 3 [] [Some 10; Some 11; Some 12] [0; 1; 2] false)%nat);
        simpl; try reflexivity; lia].
    eapply Scheduler.reach_step;
      [|apply (Scheduler.step_settle 3 2 out
                 (Scheduler.mkLoop 3 [0] [None; Some 11; Some 12] [0; 1; 2] false)%nat 0%nat);
        simpl; auto].
    eapply Scheduler.reach_step;
      [|apply (Scheduler.step_settle 3 2 out
                 (Scheduler.mkLoop 3 [0; 2] [None; Some 11; None] [0; 1; 2] true)%nat 2%nat);
        simpl; auto].
    eapply Scheduler.reach_step;
      [|apply (Scheduler.step_start 3 2 out
                 (Scheduler.mkLoop 2 [0] [None; Some 11; None] [0; 1] false)%nat);
        simpl; try reflexivity; lia].
    eapply Scheduler.reach_step;
      [|apply (Scheduler.step_settle 3 2 out
                 (Scheduler.mkLoop 2 [0; 1] [None; None; None] [0; 1] true)%nat 1%nat);
        simpl; auto].
    eapply Scheduler.reach_step;
      [|apply (Scheduler.step_start 3 2 out
                 (Scheduler.mkLoop 1 [0] [None; None; None] [0] false)%nat);
        simpl; try reflexivity; lia].
    eapply Scheduler.reach_step;
      [|apply (Scheduler.step_start 3 2 out
                 (Scheduler.mkLoop 0 [] [None; None; None] [] false)%nat);
        simpl; try reflexivity; lia].
    exact (Scheduler.reach_init 3 2 out). }
  exact (conj Hm (C2_fetchWithConcurrencyLimit_guarantees nat 3 2 out _ Hm R)).
Defined.

(** ** Lemmas on the fetch engine *)
Module EngineFacts.
Import Checks Synthetic.

Lemma insert_perm : forall m l, Permutation (m :: l) (insert_by_time m l).
Proof.
  intros m l; induction l as [|h t IH]; simpl; [reflexivity|].
  destruct (time m <=? time h); [reflexivity|].
  transitivity (h :: m :: t); [apply perm_swap|]. constructor. exact IH.
Qed.

Lemma sort_perm : forall l, Permutation l (sort_by_time l).
Proof.
  induction l as [|a l IH]; simpl; [reflexivity|].
  transitivity (a :: sort_by_time l); [constructor; exact IH|apply insert_perm].
Qed.

Lemma insert_hd : forall h m l,
  HdRel time_le h l -> time h <= time m -> HdRel time_le h (insert_by_time m l).
Proof.
  intros h m [|x l] Hhd Hle; simpl.
  - constructor. exact Hle.
  - destruct (time m <=? time x); constructor; [exact Hle|].
    inversion Hhd; assumption.
Qed.

Lemma insert_sorted : forall m l,
  Sorted time_le l -> Sorted time_le (insert_by_time m l).
Proof.
  intros m l; induction l as [|h t IH]; intros Hs; simpl.
  - repeat constructor.
  - destruct (time m <=? time h) eqn:E.
    + constructor; [exact Hs|]. constructor. apply Z.leb_le. exact E.
    + apply Sorted_inv in Hs as [Ht Hhd]. constructor; [apply IH; exact Ht|].
      apply insert_hd; [exact Hhd|]. apply Z.leb_gt in E. unfold time_le. lia.
Qed.

Lemma sort_sorted : forall l, Sorted time_le (sort_by_time l).
Proof.
  induction l as [|a l IH]; simpl; [constructor|]. apply insert_sorted. exact IH.
Qed.

Lemma push_opt : forall (l : list Metric) (o : option Metric),
  match o with Some p => l ++ [p] | None => l end = l ++ opt_list o.
Proof. intros l [p|]; simpl; [reflexivity|symmetry; apply app_nil_r]. Qed.

Lemma firstn_add : forall {A} (a b : nat) (l : list A),
  firstn (a + b) l = firstn a l ++ firstn b (skipn a l).
Proof.
  intros A a; induction a as [|a IH]; intros b [|x l]; simpl;
    try rewrite firstn_nil; try reflexivity.
  f_equal. apply IH.
Qed.

Lemma concat_pages : forall {A} (k : nat) (l : list A) (m j : nat),
  List.concat (map (fun i => firstn k (skipn (i * k) l)) (seq j m)) =
  firstn (m * k) (skipn (j * k) l).
Proof.
  intros A k l m; induction m as [|m IH]; intros j; simpl; [reflexivity|].
  rewrite IH, firstn_add, skipn_skipn.
  replace (S j * k)%nat with (k + j * k)%nat by lia. reflexivity.
Qed.

(** What the synthetic backend gives each operation. *)
Lemma backend_lastPoint : forall tagSlug P B w,
  _getLastPointOfPreviousPeriod (backend tagSlug P B) w =
  Ok (match B with [] => None | p :: _ => Some (mkMetric (_toIXONISOString (from w)) (values p)) end).
Proof. intros tagSlug P [|p B] w; reflexivity. Qed.

Lemma backend_opt : forall w B,
  opt_list (match B with [] => None | p :: _ =>
              Some (mkMetric (_toIXONISOString (from w)) (values p)) end) = backfill w B.
Proof. intros w [|p B]; reflexivity. Qed.

Lemma backend_count : forall tagSlug P B w,
  _getTotalCount (backend tagSlug P B) w tagSlug = Z.of_nat (List.length P).
Proof.
  intros tagSlug P B w. unfold _getTotalCount, backend. simpl.
  rewrite String.eqb_refl. reflexivity.
Qed.

Lemma backend_page : forall tagSlug P B w offset limit,
  fetch_page (backend tagSlug P B) w offset limit =
  firstn (Z.to_nat limit) (skipn (Z.to_nat offset) P).
Proof. intros. reflexivity. Qed.

Lemma backend_dataList_page : forall tagSlug P B s e offset limit asc,
  dataList (backend tagSlug P B) (PageQuery s e offset limit asc) =
  mkResponse 200 (Some (Some (firstn (Z.to_nat limit) (skipn (Z.to_nat offset) P)))).
Proof. reflexivity. Qed.

(** One page of the sequential strategy. *)
Lemma sequential_step : forall fuel be w offset acc,
  _getAllRawMetrics (S fuel) be w true offset acc =
  match data (dataList be (PageQuery (_toIXONISOString (from w)) (_toIXONISOString (to w))
                             offset queryLimit false)) with
  | Some (Some points) =>
      _getAllRawMetrics fuel be w (Z.of_nat (List.length points) =? queryLimit)
        (offset + queryLimit) (acc ++ points)
  | _ => Throw TypeError
  end.
Proof. reflexivity. Qed.

Lemma sequential_last : forall fuel be w offset acc,
  _getAllRawMetrics (S fuel) be w false offset acc =
  (lastPoint <- _getLastPointOfPreviousPeriod be w ;; Ok (acc ++ opt_list lastPoint)).
Proof.
  intros fuel be w offset acc. simpl.
  destruct (_getLastPointOfPreviousPeriod be w) as [[p|]| |]; simpl; auto.
  rewrite app_nil_r. reflexivity.
Qed.

(** The sequential strategy reads the rest of the points, from offset [o]. *)
Lemma sequential_backend : forall tagSlug P B w fuel o acc,
  (List.length (skipn o P) < fuel * 5000)%nat ->
  _getAllRawMetrics (S fuel) (backend tagSlug P B) w true (Z.of_nat o) acc =
  Ok (acc ++ skipn o P ++ backfill w B).
Proof.
  intros tagSlug P B w fuel; induction fuel as [|fuel IH]; intros o acc Hlen; [lia|].
  rewrite sequential_step, backend_dataList_page. cbn [data].
  rewrite Nat2Z.id. change (Z.to_nat queryLimit) with 5000%nat.
  rewrite length_firstn.
  destruct (Nat.le_gt_cases 5000 (List.length (skipn o P))) as [Hge|Hlt].
  - rewrite Nat.min_l by exact Hge. change (Z.of_nat 5000 =? queryLimit) with true.
    replace (Z.of_nat o + queryLimit) with (Z.of_nat (5000 + o)) by (unfold queryLimit; lia).
    rewrite IH.
    + f_equal. rewrite <- !app_assoc. f_equal.
      rewrite <- skipn_skipn, app_assoc, firstn_skipn. reflexivity.
    + rewrite <- skipn_skipn, length_skipn. lia.
  - rewrite Nat.min_r by lia.
    assert (Hf : (Z.of_nat (List.length (skipn o P)) =? queryLimit) = false)
      by (apply Z.eqb_neq; unfold queryLimit; lia).
    rewrite Hf, sequential_last, backend_lastPoint. cbn [bind].
    rewrite backend_opt, firstn_all2 by lia. rewrite app_assoc. reflexivity.
Qed.

Lemma ceil_div_bound : forall n, 0 < n -> n <= ceil_div n 5000 * 5000.
Proof.
  intros n Hn. unfold ceil_div.
  pose proof (Z.div_mod (- n) 5000 ltac:(lia)).
  pose proof (Z.mod_pos_bound (- n) 5000 ltac:(lia)).
  lia.
Qed.

(** The parallel strategy returns the window's points and the back-fill,
    in some order. *)
Lemma parallel_backend : forall tagSlug P B w,
  exists l, _getAllRawMetricsParallel (backend tagSlug P B) w tagSlug = Ok l /\
            Permutation l (P ++ backfill w B).
Proof.
  intros tagSlug P B w. unfold _getAllRawMetricsParallel.
  rewrite backend_count, backend_lastPoint. cbn [bind].
  rewrite <- (backend_opt w B).
  set (bf := match B with [] => None | p :: _ =>
               Some (mkMetric (_toIXONISOString (from w)) (values p)) end).
  destruct (Z.of_nat (List.length P) =? 0) eqn:H0.
  - apply Z.eqb_eq in H0. destruct P; [|simpl in H0; lia].
    eexists; split; [reflexivity|]. destruct bf; reflexivity.
  - destruct (Z.of_nat (List.length P) <=? queryLimit) eqn:H1.
    + eexists; split; [reflexivity|].
      rewrite push_opt, backend_page. change (Z.to_nat queryLimit) with 5000%nat.
      apply Z.leb_le in H1. unfold queryLimit in H1.
      rewrite firstn_all2 by (simpl; lia). reflexivity.
    + eexists; split; [reflexivity|].
      rewrite push_opt. symmetry. eapply perm_trans; [|apply sort_perm].
      apply Permutation_app_tail.
      apply Z.eqb_neq in H0. apply Z.leb_gt in H1. unfold queryLimit in *.
      set (m := Z.to_nat (ceil_div (Z.of_nat (List.length P)) 5000)).
      rewrite (map_ext _ (fun i => firstn 5000 (skipn (i * 5000) P))).
      * rewrite concat_pages. simpl skipn. rewrite firstn_all2; [reflexivity|].
        pose proof (ceil_div_bound (Z.of_nat (List.length P)) ltac:(lia)). lia.
      * intros k. rewrite backend_page. f_equal. f_equal. lia.
Qed.

(** The shape of a sequential run: the accumulated pages, each the points
    of a page answer, then the back-fill point if any. *)
Lemma sequential_shape : forall fuel be w hasNext offset acc l,
  _getAllRawMetrics fuel be w hasNext offset acc = Ok l ->
  exists lastPoint pages,
    _getLastPointOfPreviousPeriod be w = Ok lastPoint /\
    l = acc ++ List.concat pages ++ opt_list lastPoint /\
    Forall (fun pg => exists off,
              data (dataList be (PageQuery (_toIXONISOString (from w))
                                   (_toIXONISOString (to w)) off queryLimit false))
              = Some (Some pg)) pages.
Proof.
  intros fuel; induction fuel as [|fuel IH]; intros be w hasNext offset acc l Hrun;
    [discriminate|].
  destruct hasNext.
  - rewrite sequential_step in Hrun.
    destruct (data (dataList be _)) as [[points|]|] eqn:Hd; try discriminate.
    destruct (IH _ _ _ _ _ _ Hrun) as (lastPoint & pages & Hlp & Hl & Hpages).
    exists lastPoint, (points :: pages). split; [exact Hlp|]. split.
    + rewrite Hl. simpl. rewrite !app_assoc. reflexivity.
    + constructor; [exists offset; exact Hd|exact Hpages].
  - rewrite sequential_last in Hrun.
    destruct (_getLastPointOfPreviousPeriod be w) as [lastPoint| |] eqn:Hlp;
      try discriminate.
    cbn [bind] in Hrun. injection Hrun as <-.
    exists lastPoint, []. split; [reflexivity|]. split; [reflexivity|constructor].
Qed.

(** The shape of a parallel run: page answers and the back-fill point, in
    some order. *)
Lemma parallel_shape : forall be w tagSlug l,
  _getAllRawMetricsParallel be w tagSlug = Ok l ->
  exists lastPoint pages,
    _getLastPointOfPreviousPeriod be w = Ok lastPoint /\
    Permutation l (List.concat pages ++ opt_list lastPoint) /\
    Forall (fun pg => exists off lim, pg = fetch_page be w off lim) pages.
Proof.
  intros be w tagSlug l Hrun. unfold _getAllRawMetricsParallel in Hrun.
  destruct (_getLastPointOfPreviousPeriod be w) as [lastPoint| |] eqn:Hlp;
    destruct (_getTotalCount be w tagSlug =? 0);
    try destruct (_getTotalCount be w tagSlug <=? queryLimit);
    cbn [bind] in Hrun; try discriminate; injection Hrun as <-;
    exists lastPoint.
  - exists []. split; [reflexivity|]. split; [destruct lastPoint; reflexivity|constructor].
  - exists []. split; [reflexivity|]. split; [destruct lastPoint; reflexivity|constructor].
  - exists [fetch_page be w 0 queryLimit]. split; [reflexivity|].
    split; [rewrite push_opt; simpl; rewrite app_nil_r; reflexivity|].
    constructor; [exists 0, queryLimit; reflexivity|constructor].
  - eexists. split; [reflexivity|]. split.
    + rewrite push_opt. symmetry. apply sort_perm.
    + apply Forall_forall. intros pg Hpg. apply in_map_iff in Hpg as (k & <- & _).
      eexists; eexists; reflexivity.
Qed.

Lemma lastPoint_time : forall be w p,
  _getLastPointOfPreviousPeriod be w = Ok (Some p) ->
  time p = from w / 1000 * 1000.
Proof.
  intros be w p H. unfold _getLastPointOfPreviousPeriod in H.
  destruct (data _) as [[[|q points]|]|]; try discriminate.
  injection H as <-. reflexivity.
Qed.

(** The conversion of [getAllRawMetrics] keeps exactly the points whose
    value is present and not NaN. *)
Lemma to_samples_In : forall tagSlug factor decimals all s,
  In s (to_samples tagSlug factor decimals all) <->
  exists x v, In x all /\ lookup tagSlug (values x) = Some v /\ is_nan v = false /\
              s = Statistics.mkSample (time x) (Js.toFixed_parseFloat (v * factor)%float decimals).
Proof.
  intros tagSlug factor decimals all s. unfold to_samples.
  rewrite in_map_iff. split.
  - intros ([t ov] & <- & Hin). apply filter_In in Hin as [Hin Hkeep].
    apply in_map_iff in Hin as (x & Hx & Hin). injection Hx as <- <-.
    destruct (lookup tagSlug (values x)) as [v|] eqn:Hv; [|discriminate].
    simpl in Hkeep. exists x, v. split; [exact Hin|]. split; [exact Hv|].
    split; [destruct (is_nan v); [discriminate|reflexivity]|reflexivity].
  - intros (x & v & Hin & Hv & Hnan & ->).
    exists (time x, Some v). split; [reflexivity|].
    apply filter_In. split.
    + apply in_map_iff. exists x. rewrite Hv. split; [reflexivity|exact Hin].
    + simpl. rewrite Hnan. reflexivity.
Qed.
End EngineFacts.

(** ** C6 *)

(** C6: against a synthetic backend (the window's points [P] served by
    offset and limit, the count query answering [|P|], the look-back
    answering [B]), the sequential and the parallel strategies both return,
    and return the same points up to order: [P] and the back-fill point. *)
Theorem C6_sequential_parallel_same_points :
  forall (tagSlug : string) (P B : list Metric) (w : Window) (fuel : nat),
    (List.length P < fuel * 5000)%nat ->
    exists l1 l2,
      _getAllRawMetrics (S fuel) (Synthetic.backend tagSlug P B) w true 0 [] = Ok l1 /\
      _getAllRawMetricsParallel (Synthetic.backend tagSlug P B) w tagSlug = Ok l2 /\
      Permutation l1 l2.
Proof.
  intros tagSlug P B w fuel Hfuel.
  destruct (EngineFacts.parallel_backend tagSlug P B w) as (l2 & Hpar & Hperm).
  exists (P ++ Synthetic.backfill w B), l2.
  split; [|split; [exact Hpar|symmetry; exact Hperm]].
  exact (EngineFacts.sequential_backend tagSlug P B w fuel 0 [] Hfuel).
Qed.

Lemma C6_witness :
  (List.length (Synthetic.series "t" 1000 3) < 1 * 5000)%nat /\
  exists l1 l2,
    _getAllRawMetrics 2 (Synthetic.backend "t" (Synthetic.series "t" 1000 3)
                           [mkMetric 0 [("t"%string, 5%float)]]) (mkWindow 1000 60000) true 0 [] = Ok l1 /\
    _getAllRawMetricsParallel (Synthetic.backend "t" (Synthetic.series "t" 1000 3)
                                 [mkMetric 0 [("t"%string, 5%float)]]) (mkWindow 1000 60000) "t" = Ok l2 /\
    Permutation l1 l2.
Proof.
  assert (H : (List.length (Synthetic.series "t" 1000 3) < 1 * 5000)%nat) by (simpl; lia).
  exact (conj H (C6_sequential_parallel_same_points "t" (Synthetic.series "t" 1000 3)
                   [mkMetric 0 [("t"%string, 5%float)]] (mkWindow 1000 60000) 1 H)).
Defined.

(** ** C1 *)

(** C1 fails as stated: with one point at 2000 in a window starting at
    1000 and a look-back point, both strategies return the page point
    followed by the back-fill point at 1000, which is out of order (the
    single-page and sequential paths do not sort); and on the multi-page
    path, which sorts, a page point at [window.from] and the back-fill point
    share a time, so the result is not strictly ascending. *)
Lemma C1_counterexample :
  _getAllRawMetricsParallel
    (Synthetic.backend "t" [mkMetric 2000 [("t"%string, 1%float)]] [mkMetric 0 [("t"%string, 2%float)]])
    (mkWindow 1000 60000) "t"
  = Ok [mkMetric 2000 [("t"%string, 1%float)]; mkMetric 1000 [("t"%string, 2%float)]] /\
  _getAllRawMetrics 2
    (Synthetic.backend "t" [mkMetric 2000 [("t"%string, 1%float)]] [mkMetric 0 [("t"%string, 2%float)]])
    (mkWindow 1000 60000) true 0 []
  = Ok [mkMetric 2000 [("t"%string, 1%float)]; mkMetric 1000 [("t"%string, 2%float)]] /\
  exists l,
    _getAllRawMetricsParallel
      (Synthetic.backend "t" (Synthetic.series "t" 1000 5001) [mkMetric 0 [("t"%string, 2%float)]])
      (mkWindow 1000 6000000) "t" = Ok l /\
    Checks.strictly_ascending l = false.
Proof.
  split; [vm_compute; reflexivity|]. split; [vm_compute; reflexivity|].
  eexists. split; [vm_compute; reflexivity|]. vm_compute. reflexivity.
Qed.

(** The multi-page path of the parallel strategy (the count exceeds the
    page size of 5000) sorts what it returns by time. *)
Lemma parallel_multipage_sorted :
  forall (be : Backend) (w : Window) (tagSlug : string) (l : list Metric),
    queryLimit < _getTotalCount be w tagSlug ->
    _getAllRawMetricsParallel be w tagSlug = Ok l ->
    Sorted (fun a b => time a <= time b) l.
Proof.
  intros be w tagSlug l Hcount Hrun. unfold _getAllRawMetricsParallel in Hrun.
  assert (H0 : (_getTotalCount be w tagSlug =? 0) = false)
    by (apply Z.eqb_neq; unfold queryLimit in Hcount; lia).
  assert (H1 : (_getTotalCount be w tagSlug <=? queryLimit) = false)
    by (apply Z.leb_gt; exact Hcount).
  rewrite H0, H1 in Hrun.
  destruct (_getLastPointOfPreviousPeriod be w) as [lastPoint| |];
    cbn [bind] in Hrun; try discriminate.
  injection Hrun as <-. apply EngineFacts.sort_sorted.
Qed.

(** In a list sorted by time, a point listed last is not earlier than any
    point before it. *)
Lemma sorted_last_not_earlier :
  forall (l : list Metric) (b p : Metric),
    Sorted (fun a b => time a <= time b) (l ++ [b]) -> In p l -> time p <= time b.
Proof.
  intros l b p Hs Hin.
  apply Sorted_StronglySorted in Hs; [|red; intros x y z; lia].
  induction l as [|a l IH]; [destruct Hin|].
  simpl in Hs. apply StronglySorted_inv in Hs as [Hs Hall].
  destruct Hin as [<-|Hin]; [|exact (IH Hs Hin)].
  rewrite Forall_forall in Hall. apply Hall, in_or_app. right. left. reflexivity.
Qed.

(** C1: when the count is between 1 and the page size of 5000, the
    parallel strategy reads the one page and appends the back-fill point
    after it without sorting, while its multi-page path sorts: so as soon
    as a page point is later than the back-fill point (stamped
    [window.from] truncated to whole seconds), the result is out of time
    order. *)
Theorem C1_single_page_branch_unsorted :
  forall (tagSlug : string) (P B : list Metric) (w : Window),
    (0 < List.length P <= 5000)%nat ->
    B <> [] ->
    (exists p, In p P /\ _toIXONISOString (from w) < time p) ->
    _getAllRawMetricsParallel (Synthetic.backend tagSlug P B) w tagSlug =
      Ok (P ++ Synthetic.backfill w B) /\
    ~ Sorted (fun a b => time a <= time b) (P ++ Synthetic.backfill w B) /\
    (forall (be : Backend) (l : list Metric),
       queryLimit < _getTotalCount be w tagSlug ->
       _getAllRawMetricsParallel be w tagSlug = Ok l ->
       Sorted (fun a b => time a <= time b) l).
Proof.
  intros tagSlug P B w Hlen HB (p & Hp & Hlate).
  split; [|split].
  - unfold _getAllRawMetricsParallel.
    rewrite EngineFacts.backend_count.
    replace (Z.of_nat (List.length P) =? 0) with false by (symmetry; apply Z.eqb_neq; lia).
    replace (Z.of_nat (List.length P) <=? queryLimit) with true
      by (symmetry; apply Z.leb_le; unfold queryLimit; lia).
    rewrite EngineFacts.backend_lastPoint. cbn [bind].
    rewrite EngineFacts.push_opt, EngineFacts.backend_opt, EngineFacts.backend_page.
    rewrite skipn_O, firstn_all2 by (unfold queryLimit; lia). reflexivity.
  - destruct B as [|b B]; [congruence|]. simpl.
    intros Hs. apply (sorted_last_not_earlier P _ p Hs) in Hp. simpl in Hp. lia.
  - intros be l. apply parallel_multipage_sorted.
Qed.

Lemma C1_single_page_branch_unsorted_witness :
  (0 < List.length [mkMetric 2000 [("t"%string, 1%float)]] <= 5000)%nat /\
  _getAllRawMetricsParallel
    (Synthetic.backend "t" [mkMetric 2000 [("t"%string, 1%float)]] [mkMetric 0 [("t"%string, 2%float)]])
    (mkWindow 1000 60000) "t"
  = Ok [mkMetric 2000 [("t"%string, 1%float)]; mkMetric 1000 [("t"%string, 2%float)]] /\
  ~ Sorted (fun a b => time a <= time b)
      [mkMetric 2000 [("t"%string, 1%float)]; mkMetric 1000 [("t"%string, 2%float)]].
Proof.
  assert (Hlen : (0 < List.length [mkMetric 2000 [("t"%string, 1%float)]] <= 5000)%nat)
    by (simpl; lia).
  destruct (C1_single_page_branch_unsorted "t" [mkMetric 2000 [("t"%string, 1%float)]]
              [mkMetric 0 [("t"%string, 2%float)]] (mkWindow 1000 60000) Hlen
              ltac:(discriminate)
              (ex_intro _ (mkMetric 2000 [("t"%string, 1%float)])
                 (conj (or_introl eq_refl) eq_refl)))
    as (Hrun & Hns & _).
  split; [exact Hlen|]. split; [exact Hrun|]. exact Hns.
Defined.

(** ** C7 *)

(** C7 fails as stated: for a window starting at 1500 ms the back-fill
    point is stamped 1000, the start truncated to whole seconds by
    [_toIXONISOString], not [window.from]. *)
Lemma C7_counterexample :
  _getAllRawMetricsParallel (Synthetic.backend "t" [] [mkMetric 0 [("t"%string, 7%float)]])
    (mkWindow 1500 10000) "t"
  = Ok [mkMetric 1000 [("t"%string, 7%float)]].
Proof. vm_compute. reflexivity. Qed.

(** C7 (amended): each strategy's result is made of page answers and at
    most one back-fill point, the look-back query's point (in the
    sequential strategy appended last; in the parallel one up to order);
    the back-fill point's time is [window.from] truncated to whole seconds,
    which is [window.from] exactly when [window.from] is a whole second. *)
Theorem C7_backfill_once_at_window_start :
  forall (be : Backend) (w : Window) (tagSlug : string),
    (forall l, _getAllRawMetricsParallel be w tagSlug = Ok l ->
       exists lastPoint pages,
         _getLastPointOfPreviousPeriod be w = Ok lastPoint /\
         Permutation l (List.concat pages ++ Checks.opt_list lastPoint) /\
         Forall (fun pg => exists off lim, pg = fetch_page be w off lim) pages) /\
    (forall fuel l, _getAllRawMetrics fuel be w true 0 [] = Ok l ->
       exists lastPoint pages,
         _getLastPointOfPreviousPeriod be w = Ok lastPoint /\
         l = List.concat pages ++ Checks.opt_list lastPoint /\
         Forall (fun pg => exists off,
                   data (dataList be (PageQuery (_toIXONISOString (from w))
                                        (_toIXONISOString (to w)) off queryLimit false))
                   = Some (Some pg)) pages) /\
    (forall p, _getLastPointOfPreviousPeriod be w = Ok (Some p) ->
       time p = from w / 1000 * 1000 /\
       (from w mod 1000 = 0 -> time p = from w)).
Proof.
  intros be w tagSlug. split; [|split].
  - intros l Hrun. exact (EngineFacts.parallel_shape be w tagSlug l Hrun).
  - intros fuel l Hrun. exact (EngineFacts.sequential_shape fuel be w true 0 [] l Hrun).
  - intros p Hp. pose proof (EngineFacts.lastPoint_time be w p Hp) as Ht.
    split; [exact Ht|]. intros Hmod. rewrite Ht.
    pose proof (Z.div_mod (from w) 1000) as Hdm. lia.
Qed.

Lemma C7_witness :
  _getAllRawMetricsParallel (Synthetic.backend "t" [mkMetric 3000 [("t"%string, 1%float)]]
                               [mkMetric 0 [("t"%string, 7%float)]]) (mkWindow 2000 10000) "t"
  = Ok [mkMetric 3000 [("t"%string, 1%float)]; mkMetric 2000 [("t"%string, 7%float)]] /\
  (forall p, _getLastPointOfPreviousPeriod
               (Synthetic.backend "t" [mkMetric 3000 [("t"%string, 1%float)]]
                  [mkMetric 0 [("t"%string, 7%float)]]) (mkWindow 2000 10000) = Ok (Some p) ->
     time p = 2000).
Proof.
  split; [vm_compute; reflexivity|].
  intros p Hp.
  destruct (C7_backfill_once_at_window_start
              (Synthetic.backend "t" [mkMetric 3000 [("t"%string, 1%float)]]
                 [mkMetric 0 [("t"%string, 7%float)]]) (mkWindow 2000 10000) "t")
    as (_ & _ & Hbf).
  apply (Hbf p Hp). reflexivity.
Defined.

(** ** C8 *)

(** C8 fails as stated: a wire value that parses to [+Infinity] (such as
    [1e400]) passes the [isNaN] filter and reaches the caller. *)
Lemma C8_counterexample :
  getAllRawMetrics (Synthetic.backend "t" [mkMetric 2000 [("t"%string, infinity)]] [])
    (mkWindow 1000 10000) (Some "s"%string) "t" 1 2
  = Ok (Some [Statistics.mkSample 2000 infinity]).
Proof. vm_compute. reflexivity. Qed.

(** C8 (amended): [getAllRawMetrics] drops exactly the fetched points whose
    value for the tag is missing or NaN and keeps every other one, scaled
    and rounded; in particular, with factor 1 a point whose value is
    [+Infinity] or [-Infinity] is returned with that value. *)
Theorem C8_getAllRawMetrics_drops_only_nan :
  forall (be : Backend) (w : Window) (sourceId tagSlug : string) (factor : float)
         (decimals : nat) (samples : list Statistics.SamplePoint),
    getAllRawMetrics be w (Some sourceId) tagSlug factor decimals = Ok (Some samples) ->
    exists all,
      _getAllRawMetricsParallel be w tagSlug = Ok all /\
      (forall s, In s samples <->
         exists x v, In x all /\ lookup tagSlug (values x) = Some v /\ is_nan v = false /\
           s = Statistics.mkSample (time x) (Js.toFixed_parseFloat (v * factor)%float decimals)) /\
      (factor = 1%float ->
       forall x v, In x all -> lookup tagSlug (values x) = Some v ->
         (v = infinity \/ v = neg_infinity) ->
         In (Statistics.mkSample (time x) v) samples).
Proof.
  intros be w sourceId tagSlug factor decimals samples Hrun.
  unfold getAllRawMetrics in Hrun.
  destruct (_getAllRawMetricsParallel be w tagSlug) as [all| |] eqn:Hpar;
    cbn [bind] in Hrun; try discriminate.
  injection Hrun as <-. exists all. split; [reflexivity|]. split.
  - intros s. apply EngineFacts.to_samples_In.
  - intros -> x v Hin Hv Hinf. apply EngineFacts.to_samples_In.
    exists x, v. split; [exact Hin|]. split; [exact Hv|].
    destruct Hinf as [-> | ->]; (split; [reflexivity|]); reflexivity.
Qed.

Lemma C8_witness :
  getAllRawMetrics (Synthetic.backend "t" [mkMetric 2000 [("t"%string, neg_infinity)]] [])
    (mkWindow 1000 10000) (Some "s"%string) "t" 1 2
  = Ok (Some [Statistics.mkSample 2000 neg_infinity]) /\
  In (Statistics.mkSample 2000 neg_infinity) [Statistics.mkSample 2000 neg_infinity].
Proof.
  assert (H : getAllRawMetrics (Synthetic.backend "t" [mkMetric 2000 [("t"%string, neg_infinity)]] [])
                (mkWindow 1000 10000) (Some "s"%string) "t" 1 2
              = Ok (Some [Statistics.mkSample 2000 neg_infinity])) by (vm_compute; reflexivity).
  split; [exact H|].
  destruct (C8_getAllRawMetrics_drops_only_nan _ _ _ _ _ _ _ H) as (all & Hall & _ & Hkeep).
  vm_compute in Hall. injection Hall as <-.
  apply (Hkeep eq_refl (mkMetric 2000 [("t"%string, neg_infinity)]) neg_infinity);
    [left; reflexivity|reflexivity|right; reflexivity].
Defined.

(** * Further properties of the code *)

(** ** Strings: [split], the selector, [_getFilters] *)
Module StringFacts.
Import JsString.
Local Open Scope string_scope.

Lemma append_assoc : forall a b c : string, (a ++ b) ++ c = a ++ (b ++ c).
Proof. induction a as [|ch a IH]; intros b c; simpl; [reflexivity|]. rewrite IH. reflexivity. Qed.

Lemma append_nil_r : forall a : string, a ++ "" = a.
Proof. induction a as [|ch a IH]; simpl; [reflexivity|]. rewrite IH. reflexivity. Qed.

Lemma prefix_app : forall x s, prefix x (x ++ s) = true.
Proof.
  induction x as [|ch x IH]; intros s; simpl; [destruct s; reflexivity|].
  destruct (ascii_dec ch ch) as [_|Hne]; [apply IH|congruence].
Qed.

Lemma prefix_in : forall x t d,
  prefix x t = true -> In d (list_ascii_of_string x) -> In d (list_ascii_of_string t).
Proof.
  induction x as [|ch x IH]; intros t d Hp Hd; [destruct Hd|].
  destruct t as [|ch' t]; simpl in Hp; [discriminate|].
  destruct (ascii_dec ch ch') as [<-|_]; [|discriminate].
  simpl in Hd |- *. destruct Hd as [->|Hd]; [left; reflexivity|right; apply (IH t d Hp Hd)].
Qed.

(** Passing the rest of a found occurrence. *)
Lemma split_go_skip : forall sep x s cur,
  split_go sep (x ++ s) (String.length x) cur = split_go sep s O cur.
Proof. induction x as [|ch x IH]; intros s cur; simpl; [reflexivity|apply IH]. Qed.

(** An occurrence of the separator at the scan position closes a piece. *)
Lemma split_go_sep : forall sep s cur, sep <> "" ->
  split_go sep (sep ++ s) O cur = cur :: split_go sep s O "".
Proof.
  intros [|c sep'] s cur Hne; [congruence|].
  change (String c sep' ++ s) with (String c (sep' ++ s)).
  assert (Hp : prefix (String c sep') (String c (sep' ++ s)) = true)
    by exact (prefix_app (String c sep') s).
  cbn [split_go]. rewrite Hp. f_equal.
  replace (String.length (String c sep') - 1)%nat with (String.length sep')
    by (simpl; lia).
  apply split_go_skip.
Qed.

(** Text free of the separator's first character is read into the piece. *)
Lemma split_go_plain : forall c sep' a s cur,
  ~ In c (list_ascii_of_string a) ->
  split_go (String c sep') (a ++ s) O cur = split_go (String c sep') s O (cur ++ a).
Proof.
  intros c sep'. induction a as [|ch a IH]; intros s cur Hc.
  - simpl. rewrite append_nil_r. reflexivity.
  - change (String ch a ++ s) with (String ch (a ++ s)). cbn [split_go].
    replace (prefix (String c sep') (String ch (a ++ s))) with false.
    + rewrite IH by (intros H; apply Hc; right; exact H).
      rewrite append_assoc. reflexivity.
    + simpl. destruct (ascii_dec c ch) as [->|_]; [|reflexivity].
      exfalso. apply Hc. left. reflexivity.
Qed.

(** The last piece: text that lacks one of the separator's characters. *)
Lemma split_go_last : forall sep d a cur,
  In d (list_ascii_of_string sep) -> ~ In d (list_ascii_of_string a) ->
  split_go sep a O cur = [cur ++ a].
Proof.
  intros sep d. induction a as [|ch a IH]; intros cur Hd Ha.
  - simpl. rewrite append_nil_r. reflexivity.
  - cbn [split_go].
    destruct (prefix sep (String ch a)) eqn:Hp.
    + exfalso. apply Ha. exact (prefix_in sep _ d Hp Hd).
    + rewrite IH by (try exact Hd; intros H; apply Ha; right; exact H).
      rewrite append_assoc. reflexivity.
Qed.

Lemma concat_cons : forall (sep x : string) l, l <> [] ->
  String.concat sep (x :: l) = x ++ sep ++ String.concat sep l.
Proof. intros sep x [|y l] H; [congruence|reflexivity]. Qed.

Lemma concat_app : forall (sep : string) l1 l2, l1 <> [] -> l2 <> [] ->
  String.concat sep (l1 ++ l2) = String.concat sep l1 ++ sep ++ String.concat sep l2.
Proof.
  intros sep l1 l2 H1 H2. induction l1 as [|x [|y r] IH]; [congruence| |].
  - simpl. apply concat_cons. exact H2.
  - change ((x :: y :: r) ++ l2)%list with (x :: ((y :: r) ++ l2))%list.
    rewrite concat_cons by (destruct r; discriminate).
    rewrite IH by discriminate.
    rewrite (concat_cons sep x (y :: r)) by discriminate.
    rewrite !append_assoc. reflexivity.
Qed.
End StringFacts.

(** The selector [Agent#selected:<source>.tag.<tag>] gives back its source
    and tag slugs when the source slug has no dot and no colon and the tag
    slug no dot; a selector with no dot at all gives an undefined tag
    slug. *)
Theorem selector_slugs_roundtrip :
  forall src tag selector : string,
    ((~ In "."%char (list_ascii_of_string src) ->
      ~ In ":"%char (list_ascii_of_string src) ->
      ~ In "."%char (list_ascii_of_string tag) ->
      Selector.tagSlug ("Agent#selected:" ++ src ++ ".tag." ++ tag) = Some tag /\
      Selector.sourceSlug ("Agent#selected:" ++ src ++ ".tag." ++ tag) = Some src) /\
     (~ In "."%char (list_ascii_of_string selector) ->
      Selector.tagSlug selector = None))%string.
Proof.
  intros src tag selector. split.
  - intros Hsd Hsc Htd.
    assert (Hsplit : JsString.split ("Agent#selected:" ++ src ++ ".tag." ++ tag) ".tag."
                     = ["Agent#selected:" ++ src; tag]%string).
    { unfold JsString.split.
      rewrite (StringFacts.split_go_plain "."%char "tag." "Agent#selected:")
        by (simpl; intuition discriminate).
      rewrite StringFacts.split_go_plain by exact Hsd.
      rewrite StringFacts.split_go_sep by discriminate.
      rewrite (StringFacts.split_go_last ".tag." "."%char tag) by (simpl; auto).
      reflexivity. }
    unfold Selector.tagSlug, Selector.sourceSlug. rewrite Hsplit. split; [reflexivity|].
    unfold JsString.split. cbn [hd].
    change ("Agent#selected:" ++ src)%string
      with ("Agent#selected:" ++ src)%string.
    rewrite StringFacts.split_go_sep by discriminate.
    rewrite (StringFacts.split_go_last "Agent#selected:" ":"%char src) by (simpl; auto 20).
    reflexivity.
  - intros Hd. unfold Selector.tagSlug, JsString.split.
    rewrite (StringFacts.split_go_last ".tag." "."%char selector) by (simpl; auto).
    reflexivity.
Qed.

Lemma selector_slugs_roundtrip_witness :
  Selector.tagSlug "Agent#selected:plc1.tag.temperature" = Some "temperature"%string /\
  Selector.sourceSlug "Agent#selected:plc1.tag.temperature" = Some "plc1"%string /\
  Selector.tagSlug "Agent#selected:plc1" = None.
Proof.
  destruct (selector_slugs_roundtrip "plc1" "temperature" "Agent#selected:plc1")
    as [Hrt Hnone].
  destruct Hrt as [Ht Hs]; [simpl; intuition discriminate..|].
  split; [exact Ht|]. split; [exact Hs|].
  apply Hnone. simpl. intuition discriminate.
Defined.

(** [_getFilters] turns a list of filters into one [&filters=in(...)]
    clause per filter, in order: the filters of a concatenation give the
    concatenation of the clauses, and no filter gives the empty string. *)
Theorem getFilters_app :
  forall kwargs1 kwargs2 : list Filters.FilterArg,
    Filters._getFilters (kwargs1 ++ kwargs2) =
      (Filters._getFilters kwargs1 ++ Filters._getFilters kwargs2)%string /\
    Filters._getFilters [] = ""%string.
Proof.
  intros a b. split; [|reflexivity].
  destruct a as [|x a]; [reflexivity|].
  destruct b as [|y b].
  - rewrite app_nil_r. simpl. rewrite StringFacts.append_nil_r. reflexivity.
  - assert (Hc : forall k l, Filters._getFilters (k :: l) =
              ("&filters=in(" ++ String.concat ")&filters=in(" (map Filters.filter_arg (k :: l))
               ++ ")")%string) by reflexivity.
    rewrite <- app_comm_cons, !Hc, app_comm_cons.
    rewrite map_app, StringFacts.concat_app by discriminate.
    change (")&filters=in(")%string with (")" ++ "&filters=in(")%string.
    rewrite !StringFacts.append_assoc. reflexivity.
Qed.

(** ** The fetch engine *)
Module FetchFacts.
Import Checks Scenarios.

(** Retries run while the answers are 429 and retries are left. *)
Lemma fetchRawDataPage_retries : forall k r (answer : nat -> Response) offset limit,
  (k <= r)%nat ->
  (forall j, (j < k)%nat -> status (answer j) = 429) ->
  ((k < r)%nat -> status (answer k) <> 429) ->
  _fetchRawDataPage answer offset limit r =
    (Fetch offset limit :: retry_log offset limit r k, points_of (answer k)).
Proof.
  induction k as [|k IH]; intros r answer offset limit Hkr H429 Hstop.
  - destruct r as [|r]; simpl.
    + rewrite andb_false_r. reflexivity.
    + assert (Hs : (status (answer O) =? 429) = false)
        by (apply Z.eqb_neq; apply Hstop; lia).
      rewrite Hs. reflexivity.
  - destruct r as [|r]; [lia|].
    cbn [_fetchRawDataPage].
    rewrite (H429 O ltac:(lia)). cbn -[_fetchRawDataPage retry_log].
    rewrite (IH r (fun j => answer (S j)) offset limit ltac:(lia)).
    + simpl. rewrite Nat.sub_0_r. reflexivity.
    + intros j Hj. apply H429. lia.
    + intros Hk. apply Hstop. lia.
Qed.

(** One run of the sequential strategy from offset [o]: the pages it read,
    at [o], [o + 5000], ..., all full but the last. *)
Lemma sequential_pages : forall fuel be w o acc l,
  _getAllRawMetrics fuel be w true o acc = Ok l ->
  exists pages lastPoint,
    _getLastPointOfPreviousPeriod be w = Ok lastPoint /\
    l = acc ++ List.concat pages ++ opt_list lastPoint /\
    pages <> [] /\
    (forall k pg, nth_error pages k = Some pg ->
       data (dataList be (PageQuery (_toIXONISOString (from w)) (_toIXONISOString (to w))
                            (o + Z.of_nat k * queryLimit) queryLimit false)) = Some (Some pg)) /\
    (forall k pg, nth_error pages k = Some pg -> (S k < List.length pages)%nat ->
       Z.of_nat (List.length pg) = queryLimit) /\
    (forall pg, nth_error pages (List.length pages - 1) = Some pg ->
       Z.of_nat (List.length pg) <> queryLimit).
Proof.
  induction fuel as [|fuel IH]; intros be w o acc l Hrun; [discriminate|].
  rewrite EngineFacts.sequential_step in Hrun.
  destruct (data (dataList be _)) as [[points|]|] eqn:Hd; try discriminate.
  destruct (Z.of_nat (List.length points) =? queryLimit) eqn:Hfull.
  - destruct (IH _ _ _ _ _ Hrun)
      as (pages & lastPoint & Hlp & Hl & Hne & Hoff & Hlen & Hlast).
    exists (points :: pages), lastPoint.
    split; [exact Hlp|]. split; [rewrite Hl; simpl; rewrite !app_assoc; reflexivity|].
    split; [discriminate|]. split; [|split].
    + intros [|k] pg Hk; simpl in Hk.
      * injection Hk as <-. rewrite Z.add_0_r. exact Hd.
      * replace (o + Z.of_nat (S k) * queryLimit)
          with (o + queryLimit + Z.of_nat k * queryLimit) by (unfold queryLimit; lia).
        exact (Hoff k pg Hk).
    + intros [|k] pg Hk Hlt; simpl in Hk.
      * injection Hk as <-. apply Z.eqb_eq. exact Hfull.
      * apply (Hlen k pg Hk). simpl in Hlt. lia.
    + intros pg Hpg. destruct pages as [|p' pages']; [congruence|].
      apply Hlast. simpl in Hpg |- *. rewrite Nat.sub_0_r. exact Hpg.
  - destruct fuel as [|fuel]; [discriminate|].
    rewrite EngineFacts.sequential_last in Hrun.
    destruct (_getLastPointOfPreviousPeriod be w) as [lastPoint| |] eqn:Hlp;
      cbn [bind] in Hrun; try discriminate.
    injection Hrun as <-.
    exists [points], lastPoint.
    split; [reflexivity|]. split; [simpl; rewrite app_nil_r, app_assoc; reflexivity|].
    split; [discriminate|]. split; [|split].
    + intros [|[|k]] pg Hk; simpl in Hk; try discriminate.
      injection Hk as <-. rewrite Z.add_0_r. exact Hd.
    + intros [|k] pg Hk Hlt; simpl in Hlt; lia.
    + intros pg Hpg. simpl in Hpg. injection Hpg as <-. apply Z.eqb_neq. exact Hfull.
Qed.

(** A run over pages that are always full never ends. *)
Lemma sequential_full_pages : forall be w,
  (forall off, exists pts,
     data (dataList be (PageQuery (_toIXONISOString (from w)) (_toIXONISOString (to w))
                          off queryLimit false)) = Some (Some pts) /\
     Z.of_nat (List.length pts) = queryLimit) ->
  forall fuel o acc, _getAllRawMetrics fuel be w true o acc = OutOfFuel.
Proof.
  intros be w Hfull fuel. induction fuel as [|fuel IH]; intros o acc; [reflexivity|].
  rewrite EngineFacts.sequential_step.
  destruct (Hfull o) as (pts & Hd & Hlen). rewrite Hd.
  replace (Z.of_nat (List.length pts) =? queryLimit) with true
    by (symmetry; apply Z.eqb_eq; exact Hlen).
  apply IH.
Qed.
End FetchFacts.

(** [_fetchRawDataPage] (3 retries) stops at the first answer that is not
    a 429: after [k] rate-limited answers ([k <= 3]) it has sent the request
    [k + 1] times, sleeping 1, 2, ... seconds in between, and returns the
    points of answer [k]. *)
Theorem fetchRawDataPage_stops_at_first_answer :
  forall (answer : nat -> Response) (offset limit : Z) (k : nat),
    (k <= 3)%nat ->
    (forall j, (j < k)%nat -> status (answer j) = 429) ->
    ((k < 3)%nat -> status (answer k) <> 429) ->
    _fetchRawDataPage answer offset limit 3 =
      (firstn (1 + 2 * k)
         [Fetch offset limit; Sleep 1000; Fetch offset limit; Sleep 2000;
          Fetch offset limit; Sleep 3000; Fetch offset limit],
       match data (answer k) with Some (Some pts) => pts | _ => [] end).
Proof.
  intros answer offset limit k Hk H429 Hstop.
  rewrite (FetchFacts.fetchRawDataPage_retries k 3 answer offset limit Hk H429 Hstop).
  destruct k as [|[|[|[|k]]]]; try lia; reflexivity.
Qed.

Lemma fetchRawDataPage_stops_at_first_answer_witness :
  _fetchRawDataPage
    (fun j => match j with
              | O => mkResponse 429 None
              | _ => mkResponse 200 (Some (Some [mkMetric 1000 [("t"%string, 4%float)]]))
              end) 0 5000 3
  = ([Fetch 0 5000; Sleep 1000; Fetch 0 5000], [mkMetric 1000 [("t"%string, 4%float)]]).
Proof.
  rewrite (fetchRawDataPage_stops_at_first_answer _ 0 5000 1).
  - reflexivity.
  - lia.
  - intros j Hj. destruct j; [reflexivity|lia].
  - intros _. simpl. discriminate.
Defined.

(** When the sequential strategy returns, it has read the pages at offsets
    0, 5000, 10000, ... of the window, every page but the last holding
    exactly 5000 points and the last a different number, and returns their
    points in that order followed by the back-fill point, if any. *)
Theorem sequential_reads_consecutive_pages :
  forall (be : Backend) (w : Window) (fuel : nat) (l : list Metric),
    _getAllRawMetrics fuel be w true 0 [] = Ok l ->
    exists pages lastPoint,
      _getLastPointOfPreviousPeriod be w = Ok lastPoint /\
      l = List.concat pages ++ Checks.opt_list lastPoint /\
      pages <> [] /\
      (forall k pg, nth_error pages k = Some pg ->
         data (dataList be (PageQuery (_toIXONISOString (from w)) (_toIXONISOString (to w))
                              (Z.of_nat k * 5000) 5000 false)) = Some (Some pg)) /\
      (forall k pg, nth_error pages k = Some pg -> (S k < List.length pages)%nat ->
         List.length pg = 5000%nat) /\
      (forall pg, nth_error pages (List.length pages - 1) = Some pg ->
         List.length pg <> 5000%nat).
Proof.
  intros be w fuel l Hrun.
  destruct (FetchFacts.sequential_pages fuel be w 0 [] l Hrun)
    as (pages & lastPoint & Hlp & Hl & Hne & Hoff & Hlen & Hlast).
  exists pages, lastPoint.
  split; [exact Hlp|]. split; [exact Hl|]. split; [exact Hne|]. split; [|split].
  - intros k pg Hk. exact (Hoff k pg Hk).
  - intros k pg Hk Hlt. specialize (Hlen k pg Hk Hlt). unfold queryLimit in Hlen. lia.
  - intros pg Hpg Heq. apply (Hlast pg Hpg). rewrite Heq. reflexivity.
Qed.

Lemma sequential_reads_consecutive_pages_witness :
  _getAllRawMetrics 4
    (Synthetic.backend "t" (Synthetic.series "t" 1000 10001) [mkMetric 0 [("t"%string, 2%float)]])
    (mkWindow 1000 20000000) true 0 []
  = Ok (Synthetic.series "t" 1000 10001 ++ [mkMetric 1000 [("t"%string, 2%float)]]) /\
  exists pages lastPoint,
    _getLastPointOfPreviousPeriod
      (Synthetic.backend "t" (Synthetic.series "t" 1000 10001) [mkMetric 0 [("t"%string, 2%float)]])
      (mkWindow 1000 20000000) = Ok lastPoint /\
    Synthetic.series "t" 1000 10001 ++ [mkMetric 1000 [("t"%string, 2%float)]] =
      List.concat pages ++ Checks.opt_list lastPoint /\
    pages <> [] /\
    (forall k pg, nth_error pages k = Some pg ->
       data (dataList
               (Synthetic.backend "t" (Synthetic.series "t" 1000 10001)
                  [mkMetric 0 [("t"%string, 2%float)]])
               (PageQuery 1000 20000000 (Z.of_nat k * 5000) 5000 false)) = Some (Some pg)) /\
    (forall k pg, nth_error pages k = Some pg -> (S k < List.length pages)%nat ->
       List.length pg = 5000%nat) /\
    (forall pg, nth_error pages (List.length pages - 1) = Some pg ->
       List.length pg <> 5000%nat).
Proof.
  assert (H : _getAllRawMetrics 4
                (Synthetic.backend "t" (Synthetic.series "t" 1000 10001)
                   [mkMetric 0 [("t"%string, 2%float)]])
                (mkWindow 1000 20000000) true 0 []
              = Ok (Synthetic.series "t" 1000 10001 ++ [mkMetric 1000 [("t"%string, 2%float)]]))
    by (vm_compute; reflexivity).
  split; [exact H|].
  exact (sequential_reads_consecutive_pages _ (mkWindow 1000 20000000) 4 _ H).
Defined.

(** Against a backend whose pages are always full (5000 points), the
    sequential strategy never returns: it keeps requesting the next page. *)
Theorem sequential_full_pages_never_return :
  forall (be : Backend) (w : Window),
    (forall off, exists pts,
       data (dataList be (PageQuery (_toIXONISOString (from w)) (_toIXONISOString (to w))
                            off 5000 false)) = Some (Some pts) /\
       List.length pts = 5000%nat) ->
    forall fuel, _getAllRawMetrics fuel be w true 0 [] = OutOfFuel.
Proof.
  intros be w Hfull fuel. apply FetchFacts.sequential_full_pages.
  intros off. destruct (Hfull off) as (pts & Hd & Hlen). exists pts.
  split; [exact Hd|]. rewrite Hlen. reflexivity.
Qed.

Lemma sequential_full_pages_never_return_witness :
  _getAllRawMetrics 50 (Scenarios.full_page_backend (mkMetric 0 [])) (mkWindow 0 60000)
    true 0 [] = OutOfFuel.
Proof.
  apply sequential_full_pages_never_return.
  intros off. exists (repeat (mkMetric 0 []) 5000). split; [reflexivity|].
  apply repeat_length.
Defined.

(** A page answer without [data.points] makes the sequential strategy
    throw a TypeError, while a page of the parallel strategy reads it as
    an empty page (after its retries if the answer is a 429). *)
Theorem page_without_points :
  forall (be : Backend) (w : Window) (off lim : Z) (fuel : nat) (acc : list Metric),
    (let r := dataList be (PageQuery (_toIXONISOString (from w)) (_toIXONISOString (to w))
                             off queryLimit false) in
     data r = None \/ data r = Some None ->
     _getAllRawMetrics (S fuel) be w true off acc = Throw TypeError) /\
    (let r := dataList be (PageQuery (_toIXONISOString (from w)) (_toIXONISOString (to w))
                             off lim true) in
     data r = None \/ data r = Some None ->
     fetch_page be w off lim = []).
Proof.
  intros be w off lim fuel acc. split; intros r Hr.
  - rewrite EngineFacts.sequential_step. fold r.
    destruct Hr as [-> | ->]; reflexivity.
  - unfold fetch_page.
    destruct (Z.eq_dec (status r) 429) as [H429|Hok].
    + rewrite (FetchFacts.fetchRawDataPage_retries 3 3 _ off lim ltac:(lia));
        [| intros j _; exact H429 | intros H; lia].
      simpl. fold r. unfold Scenarios.points_of. destruct Hr as [-> | ->]; reflexivity.
    + rewrite (FetchFacts.fetchRawDataPage_retries 0 3 _ off lim ltac:(lia));
        [| intros j Hj; lia | intros _; exact Hok].
      simpl. fold r. unfold Scenarios.points_of. destruct Hr as [-> | ->]; reflexivity.
Qed.

Lemma page_without_points_witness :
  _getAllRawMetrics 5 (mkBackend (fun _ => mkResponse 200 None) (fun _ _ _ => mkCountResponse None))
    (mkWindow 0 60000) true 0 [] = Throw TypeError /\
  fetch_page (mkBackend (fun _ => mkResponse 429 None) (fun _ _ _ => mkCountResponse None))
    (mkWindow 0 60000) 0 5000 = [].
Proof.
  split.
  - apply (page_without_points _ (mkWindow 0 60000) 0 5000 4 []). left. reflexivity.
  - apply (page_without_points _ (mkWindow 0 60000) 0 5000 4 []). left. reflexivity.
Defined.

Module CountedFacts.
Import Checks Scenarios.

Lemma counted_count : forall tagSlug P B c w,
  _getTotalCount (counted_backend tagSlug P B c) w tagSlug = c.
Proof.
  intros. unfold _getTotalCount, counted_backend. simpl. rewrite String.eqb_refl. reflexivity.
Qed.

Lemma counted_lastPoint : forall tagSlug P B c w,
  _getLastPointOfPreviousPeriod (counted_backend tagSlug P B c) w =
  _getLastPointOfPreviousPeriod (Synthetic.backend tagSlug P B) w.
Proof. reflexivity. Qed.

Lemma counted_page : forall tagSlug P B c w offset limit,
  fetch_page (counted_backend tagSlug P B c) w offset limit =
  firstn (Z.to_nat limit) (skipn (Z.to_nat offset) P).
Proof. reflexivity. Qed.

Lemma ceil_div_one : forall c, 0 < c -> c <= 5000 -> ceil_div c 5000 = 1.
Proof.
  intros c H0 H1. unfold ceil_div.
  pose proof (Z.div_mod (- c) 5000 ltac:(lia)).
  pose proof (Z.mod_pos_bound (- c) 5000 ltac:(lia)).
  lia.
Qed.
End CountedFacts.

(** The parallel strategy trusts the count: with a count [c > 0] it returns
    the window's first [ceil(c / 5000) * 5000] points (in some order) and
    the back-fill point, so points past that are silently left out when the
    count is too low; with a count of 0 it returns the back-fill point
    alone. *)
Theorem parallel_reads_counted_pages :
  forall (tagSlug : string) (P B : list Metric) (w : Window) (c : Z),
    (0 < c ->
     exists l,
       _getAllRawMetricsParallel (Scenarios.counted_backend tagSlug P B c) w tagSlug = Ok l /\
       Permutation l (firstn (Z.to_nat (ceil_div c 5000) * 5000) P ++ Synthetic.backfill w B)) /\
    _getAllRawMetricsParallel (Scenarios.counted_backend tagSlug P B 0) w tagSlug =
      Ok (Synthetic.backfill w B).
Proof.
  intros tagSlug P B w c. split.
  - intros Hc. unfold _getAllRawMetricsParallel.
    rewrite CountedFacts.counted_count, CountedFacts.counted_lastPoint,
      EngineFacts.backend_lastPoint.
    cbn [bind]. rewrite <- (EngineFacts.backend_opt w B).
    set (bf := match B with [] => None | p :: _ =>
                 Some (mkMetric (_toIXONISOString (from w)) (values p)) end).
    replace (c =? 0) with false by (symmetry; apply Z.eqb_neq; lia).
    destruct (c <=? queryLimit) eqn:H1.
    + eexists; split; [reflexivity|].
      apply Z.leb_le in H1. unfold queryLimit in H1.
      rewrite (CountedFacts.ceil_div_one c Hc H1).
      rewrite EngineFacts.push_opt, CountedFacts.counted_page. reflexivity.
    + eexists; split; [reflexivity|].
      rewrite EngineFacts.push_opt. symmetry. eapply perm_trans; [|apply EngineFacts.sort_perm].
      apply Permutation_app_tail. unfold queryLimit.
      rewrite (map_ext _ (fun i => firstn 5000 (skipn (i * 5000) P))).
      * rewrite EngineFacts.concat_pages. reflexivity.
      * intros k. rewrite CountedFacts.counted_page. f_equal. f_equal. lia.
  - unfold _getAllRawMetricsParallel.
    rewrite CountedFacts.counted_count, CountedFacts.counted_lastPoint,
      EngineFacts.backend_lastPoint.
    cbn. rewrite <- (EngineFacts.backend_opt w B). destruct B; reflexivity.
Qed.

Lemma parallel_reads_counted_pages_witness :
  0 < 3 /\
  exists l,
    _getAllRawMetricsParallel (Scenarios.counted_backend "t" (Synthetic.series "t" 1000 5003) [] 3)
      (mkWindow 0 6000000) "t" = Ok l /\
    Permutation l (firstn 5000 (Synthetic.series "t" 1000 5003)).
Proof.
  split; [lia|].
  destruct (proj1 (parallel_reads_counted_pages "t" (Synthetic.series "t" 1000 5003) []
                     (mkWindow 0 6000000) 3) ltac:(lia)) as (l & Hl & Hperm).
  exists l. split; [exact Hl|]. rewrite app_nil_r in Hperm. exact Hperm.
Defined.

(** A look-back answer without [data.points] aborts the fetch: the
    parallel strategy and [getAllRawMetrics] throw a TypeError whatever the
    pages held, and the sequential strategy never returns a result. *)
Theorem lookback_without_points_aborts :
  forall (be : Backend) (w : Window) (tagSlug sourceId : string) (factor : float)
         (decimals : nat),
    (let r := dataList be (LastPointQuery (_toIXONISOString 0) (_toIXONISOString (from w))) in
     data r = None \/ data r = Some None) ->
    _getAllRawMetricsParallel be w tagSlug = Throw TypeError /\
    getAllRawMetrics be w (Some sourceId) tagSlug factor decimals = Throw TypeError /\
    (forall fuel l, _getAllRawMetrics fuel be w true 0 [] <> Ok l).
Proof.
  intros be w tagSlug sourceId factor decimals Hr.
  assert (Hlp : _getLastPointOfPreviousPeriod be w = Throw TypeError).
  { unfold _getLastPointOfPreviousPeriod. simpl in Hr.
    destruct Hr as [-> | ->]; reflexivity. }
  assert (Hpar : _getAllRawMetricsParallel be w tagSlug = Throw TypeError).
  { unfold _getAllRawMetricsParallel. rewrite Hlp.
    destruct (_getTotalCount be w tagSlug =? 0); [reflexivity|].
    destruct (_getTotalCount be w tagSlug <=? queryLimit); reflexivity. }
  split; [exact Hpar|]. split.
  - unfold getAllRawMetrics. rewrite Hpar. reflexivity.
  - intros fuel l Hrun.
    destruct (EngineFacts.sequential_shape fuel be w true 0 [] l Hrun) as (lp & _ & Hlp' & _).
    congruence.
Qed.

Lemma lookback_without_points_aborts_witness :
  _getAllRawMetricsParallel (mkBackend (fun q => match q with
                                         | LastPointQuery _ _ => mkResponse 200 None
                                         | PageQuery _ _ _ _ _ => mkResponse 200 (Some (Some []))
                                         end) (fun _ _ _ => mkCountResponse None))
    (mkWindow 0 60000) "t" = Throw TypeError.
Proof.
  apply (lookback_without_points_aborts _ (mkWindow 0 60000) "t" "s" 1 2). left. reflexivity.
Defined.

Module SchedulerLiveness.
Import Scheduler.

Lemma racing_nonempty : forall {T} ntasks maxConcurrent (out : nat -> T) s,
  (1 <= maxConcurrent)%nat -> reachable ntasks maxConcurrent out (Running s) ->
  racing s = true -> executing s <> [].
Proof.
  intros T n m out s Hm Hreach.
  remember (Running s) as st eqn:Est. revert s Est.
  induction Hreach as [|st st' _ IH Hstep]; intros s0 Est Hrace.
  - unfold init in Est. inversion Est; subst. discriminate.
  - destruct Hstep as [s Hr Hi | s k Hk | s Hr Hi He]; inversion Est; subst; simpl in *.
    + intros He. apply (f_equal (@List.length nat)) in He.
      rewrite length_app in He. simpl in He. lia.
    + discriminate.
Qed.

Lemma reach_to_returned : forall {T} ntasks maxConcurrent (out : nat -> T) measure s,
  (1 <= maxConcurrent)%nat ->
  (2 * (ntasks - i s) + List.length (executing s) <= measure)%nat ->
  reachable ntasks maxConcurrent out (Running s) ->
  exists r, clos_refl_trans _ (step ntasks maxConcurrent out) (Running s) (Returned r) /\
            reachable ntasks maxConcurrent out (Returned r).
Proof.
  intros T n m out measure. induction measure as [|measure IH]; intros s Hm Hmeas Hreach;
    pose proof (SchedulerFacts.inv_reachable n m out _ Hm Hreach) as Hinv;
    destruct Hinv as (_ & Hin & _ & _ & _ & _ & _ & _);
    destruct (list_eq_dec Nat.eq_dec (executing s) []) as [He|Hne].
  - destruct (racing s) eqn:Hr.
    { exfalso. exact (racing_nonempty n m out s Hm Hreach Hr He). }
    assert (Hst : step n m out (Running s) (Returned (results s)))
      by (apply step_return; [exact Hr|rewrite He in Hmeas; simpl in Hmeas; lia|exact He]).
    exists (results s). split; [apply rt_step; exact Hst|].
    eapply reach_step; eassumption.
  - exfalso. destruct (executing s); [congruence|simpl in Hmeas; lia].
  - destruct (racing s) eqn:Hr.
    { exfalso. exact (racing_nonempty n m out s Hm Hreach Hr He). }
    destruct (Nat.eq_dec (i s) n) as [Hi|Hi].
    + assert (Hst : step n m out (Running s) (Returned (results s)))
        by (apply step_return; [exact Hr|exact Hi|exact He]).
      exists (results s). split; [apply rt_step; exact Hst|].
      eapply reach_step; eassumption.
    + assert (Hst : step n m out (Running s)
                (Running (mkLoop (S (i s)) (executing s ++ [i s]) (results s)
                   (started s ++ [i s])
                   (Nat.leb m (List.length (executing s ++ [i s]))))))
        by (apply step_start; [exact Hr|lia]).
      pose proof (reach_step n m out _ _ Hreach Hst) as Hr2.
      apply IH in Hr2 as (r & Hpath & Hr'); [| exact Hm |].
      * exists r. split; [|exact Hr']. eapply rt_trans; [apply rt_step; exact Hst|exact Hpath].
      * simpl. rewrite length_app, He in *. simpl in *. lia.
  - assert (Hk : exists k, In k (executing s))
      by (destruct (executing s) as [|k0 ?]; [congruence|exists k0; left; reflexivity]).
    destruct Hk as [k Hk].
    pose proof (remove_length_lt Nat.eq_dec (executing s) k Hk) as Hshort.
    pose proof (step_settle n m out s k Hk) as Hst.
    pose proof (reach_step n m out _ _ Hreach Hst) as Hr2.
    apply IH in Hr2 as (r & Hpath & Hr'); [| exact Hm |].
    * exists r. split; [|exact Hr']. eapply rt_trans; [apply rt_step; exact Hst|exact Hpath].
    * simpl. lia.
Qed.
End SchedulerLiveness.

(** With [maxConcurrent >= 1], from every state [_fetchWithConcurrencyLimit]
    can reach, letting the running tasks settle always leads to the return
    of the result array, which then holds every task's value in task
    order: the loop never deadlocks on [Promise.race]. *)
Theorem fetchWithConcurrencyLimit_completes :
  forall {T : Type} (ntasks maxConcurrent : nat) (out : nat -> T) (st : Scheduler.sched_state T),
    (1 <= maxConcurrent)%nat ->
    Scheduler.reachable ntasks maxConcurrent out st ->
    clos_refl_trans _ (Scheduler.step ntasks maxConcurrent out) st
      (Scheduler.Returned (map (fun k => Some (out k)) (seq 0 ntasks))).
Proof.
  intros T n m out st Hm Hreach.
  destruct st as [s|r].
  - destruct (SchedulerLiveness.reach_to_returned n m out
                (2 * (n - Scheduler.i s) + List.length (Scheduler.executing s)) s Hm
                ltac:(lia) Hreach) as (r & Hpath & Hr).
    pose proof (SchedulerFacts.inv_reachable n m out _ Hm Hr) as Hinv. simpl in Hinv.
    subst r. exact Hpath.
  - pose proof (SchedulerFacts.inv_reachable n m out _ Hm Hreach) as Hinv. simpl in Hinv.
    subst r. apply rt_refl.
Qed.

Lemma fetchWithConcurrencyLimit_completes_witness :
  (1 <= 2)%nat /\
  clos_refl_trans _ (Scheduler.step 3 2 (fun k => k)) (Scheduler.init 3)
    (Scheduler.Returned [Some 0%nat; Some 1%nat; Some 2%nat]).
Proof.
  split; [lia|].
  exact (fetchWithConcurrencyLimit_completes 3 2 (fun k => k) (Scheduler.init 3)
           ltac:(lia) (Scheduler.reach_init 3 2 (fun k => k))).
Defined.

(** ** The histogram's counting *)
Module HistogramFacts.
Import Statistics ChartDraw HistogramKeys.
Local Open Scope list_scope.

Lemma SFeqb_key : forall x y, SFeqb x y = true <-> x <> S754_nan /\ zkey x = zkey y.
Proof.
  intros [s|s| |s m e] [s'|s'| |s' m' e']; unfold SFeqb; simpl;
    try (destruct s); try (destruct s'); simpl;
    split; intros H; try discriminate; try (destruct H as [H1 H2]; congruence);
    try (split; [discriminate|reflexivity]).
  all: try (destruct (Z.compare_spec e e') as [He|He|He]; subst; try discriminate).
  all: try (change (Pos.compare_cont Eq m m') with (Pos.compare m m') in *).
  all: try (destruct H as [_ H]; inversion H; subst; rewrite ?Z.compare_refl, ?Pos.compare_refl; reflexivity).
  all: try (destruct H as [_ H]; inversion H; subst; lia).
  all: destruct (Pos.compare_spec m m'); subst; simpl in H; try discriminate;
    split; [discriminate|reflexivity].
Qed.
Lemma zkey_nan : forall x, zkey x = S754_nan <-> x = S754_nan.
Proof. intros [s|s| |s m e]; simpl; split; congruence. Qed.

Lemma SFeqb_refl : forall x, x <> S754_nan -> SFeqb x x = true.
Proof. intros x Hx. apply SFeqb_key. auto. Qed.

Lemma SFeqb_nan_l : forall y, SFeqb S754_nan y = false.
Proof. intros [s|s| |s m e]; reflexivity. Qed.
Lemma sameValueZero_key : forall a b, sameValueZero a b = true <-> svkey a = svkey b.
Proof.
  intros a b. unfold sameValueZero, is_nan, svkey. rewrite !FloatAxioms.eqb_spec.
  generalize (Prim2SF a) (Prim2SF b). clear a b. intros x y.
  destruct (is_S754_nan x) as [->|Hx].
  - rewrite !SFeqb_nan_l. simpl.
    destruct (is_S754_nan y) as [->|Hy]; [simpl; tauto|].
    rewrite (SFeqb_refl y Hy). simpl. split; [discriminate|].
    intros H. exfalso. apply Hy. apply zkey_nan. symmetry. exact H.
  - rewrite (SFeqb_refl x Hx). simpl. rewrite SFeqb_key. tauto.
Qed.

Lemma svz_false : forall a b, svkey a <> svkey b -> sameValueZero a b = false.
Proof.
  intros a b H. destruct (sameValueZero a b) eqn:E; [|reflexivity].
  apply sameValueZero_key in E. contradiction.
Qed.

Lemma new_key : forall key : float, svkey (if (key =? 0)%float then 0%float else key) = svkey key.
Proof.
  intros key. destruct (key =? 0)%float eqn:E; [|reflexivity].
  unfold svkey. rewrite FloatAxioms.eqb_spec in E. apply SFeqb_key in E.
  symmetry. apply E.
Qed.

Lemma map_get_some : forall m v c, map_get m v = Some c ->
  exists e, In e m /\ K e = svkey v /\ snd e = c.
Proof.
  induction m as [|[k n] m IH]; intros v c H; simpl in H; [discriminate|].
  destruct (sameValueZero k v) eqn:E.
  - inversion H; subst. exists (k, c). split; [left; reflexivity|].
    split; [apply sameValueZero_key; exact E|reflexivity].
  - destruct (IH v c H) as (e & He & Hk & Hc). exists e. split; [right; exact He|auto].
Qed.

Lemma map_get_none : forall m v, map_get m v = None -> forall e, In e m -> K e <> svkey v.
Proof.
  induction m as [|[k n] m IH]; intros v H e He; simpl in H; [destruct He|].
  destruct (sameValueZero k v) eqn:E; [discriminate|].
  destruct He as [<-|He].
  - unfold K; simpl. intros Hk. apply sameValueZero_key in Hk. congruence.
  - exact (IH v H e He).
Qed.

Lemma map_set_keys : forall m v n,
  map K (map_set m v n) =
  match map_get m v with Some _ => map K m | None => map K m ++ [svkey v] end.
Proof.
  induction m as [|[k c] m IH]; intros v n; simpl.
  - unfold K; simpl. rewrite new_key. reflexivity.
  - destruct (sameValueZero k v) eqn:E; simpl; [reflexivity|].
    rewrite IH. destruct (map_get m v); reflexivity.
Qed.

Lemma map_set_in : forall m v n e,
  NoDup (map K m) -> In e (map_set m v n) ->
  (K e = svkey v /\ snd e = n) \/ (In e m /\ K e <> svkey v).
Proof.
  induction m as [|[k c] m IH]; intros v n e Hnd He; simpl in He.
  - destruct He as [<-|[]]. left. unfold K; simpl. rewrite new_key. auto.
  - simpl in Hnd. inversion Hnd as [|? ? Hnin Hnd']; subst.
    destruct (sameValueZero k v) eqn:E.
    + apply sameValueZero_key in E. destruct He as [<-|He].
      * left. unfold K; simpl. auto.
      * right. split; [right; exact He|]. intros Hk. apply Hnin.
        change (K (k, c)) with (svkey k). rewrite E, <- Hk. apply in_map. exact He.
    + destruct He as [<-|He].
      * right. split; [left; reflexivity|]. unfold K; simpl.
        intros Hk. apply sameValueZero_key in Hk. congruence.
      * destruct (IH v n e Hnd' He) as [H|[H1 H2]]; [left; exact H|].
        right. split; [right; exact H1|exact H2].
Qed.

Lemma map_set_keeps : forall m v n e, In e m -> K e <> svkey v -> In e (map_set m v n).
Proof.
  induction m as [|[k c] m IH]; intros v n e He Hk; simpl in *; [destruct He|].
  destruct He as [<-|He].
  - unfold K in Hk; simpl in Hk. rewrite (svz_false _ _ Hk). left. reflexivity.
  - destruct (sameValueZero k v); right; [exact He|]. apply IH; assumption.
Qed.

Lemma map_set_has : forall m v n, exists e, In e (map_set m v n) /\ K e = svkey v.
Proof.
  induction m as [|[k c] m IH]; intros v n; simpl.
  - eexists. split; [left; reflexivity|]. unfold K; simpl. apply new_key.
  - destruct (sameValueZero k v) eqn:E.
    + exists (k, n). split; [left; reflexivity|]. apply sameValueZero_key. exact E.
    + destruct (IH v n) as (e & He & Hk). exists e. split; [right; exact He|exact Hk].
Qed.

Lemma map_set_sum : forall m v n,
  (list_sum (map snd (map_set m v n)) +
   match map_get m v with Some c => c | None => O end = list_sum (map snd m) + n)%nat.
Proof.
  induction m as [|[k c] m IH]; intros v n; simpl; [lia|].
  destruct (sameValueZero k v); simpl; [lia|].
  specialize (IH v n). lia.
Qed.

Lemma svz_key_eq : forall x y a, svkey x = svkey y -> sameValueZero x a = sameValueZero y a.
Proof.
  intros x y a H. destruct (sameValueZero x a) eqn:E1, (sameValueZero y a) eqn:E2; auto.
  - apply sameValueZero_key in E1. rewrite H in E1. apply sameValueZero_key in E1. congruence.
  - apply sameValueZero_key in E2. rewrite <- H in E2. apply sameValueZero_key in E2. congruence.
Qed.

Lemma cnt_key : forall ps x y, svkey x = svkey y -> cnt ps x = cnt ps y.
Proof.
  intros ps x y H. unfold cnt. f_equal. apply filter_ext. intros a. apply svz_key_eq. exact H.
Qed.

Lemma cnt_snoc : forall ps q x,
  cnt (ps ++ [q]) x = (cnt ps x + if sameValueZero x (svalue q) then 1 else 0)%nat.
Proof.
  intros ps q x. unfold cnt. rewrite filter_app, length_app. simpl.
  destruct (sameValueZero x (svalue q)); reflexivity.
Qed.

Lemma cnt_zero : forall ps x, (forall p, In p ps -> svkey (svalue p) <> svkey x) -> cnt ps x = O.
Proof.
  intros ps x H. unfold cnt. induction ps as [|p ps IH]; [reflexivity|]. simpl.
  rewrite svz_false.
  - apply IH. intros p' Hp'. apply H. right. exact Hp'.
  - intros Hk. apply (H p); [left; reflexivity|]. symmetry. exact Hk.
Qed.

Lemma cnt_perm : forall ps ps' x, Permutation ps ps' -> cnt ps x = cnt ps' x.
Proof.
  intros ps ps' x Hp. unfold cnt. induction Hp; simpl; auto.
  - destruct (sameValueZero x (svalue x0)); simpl; auto.
  - destruct (sameValueZero x (svalue x0)), (sameValueZero x (svalue y)); simpl; auto.
  - congruence.
Qed.

Lemma NoDup_snoc : forall {A} (l : list A) x, NoDup l -> ~ In x l -> NoDup (l ++ [x]).
Proof.
  intros A l x Hnd Hx. induction Hnd as [|y l Hy Hnd IH]; simpl.
  - constructor; [intros []|constructor].
  - constructor.
    + intros Hin. apply in_app_or in Hin as [Hin|[<-|[]]]; [contradiction|].
      apply Hx. left. reflexivity.
    + apply IH. intros Hin. apply Hx. right. exact Hin.
Qed.

Lemma counts_inv_step : forall m ps q,
  counts_inv m ps -> counts_inv (count_step m q) (ps ++ [q]).
Proof.
  intros m ps q (Hnd & Hcnt & Hcov & Hsum). unfold count_step.
  set (v := svalue q).
  set (n := ((match map_get m v with Some c => c | None => O end) + 1)%nat).
  split; [|split; [|split]].
  - rewrite map_set_keys. destruct (map_get m v) eqn:G; [exact Hnd|].
    apply NoDup_snoc; [exact Hnd|]. intros Hin. apply in_map_iff in Hin as (e & Hk & He).
    exact (map_get_none m v G e He Hk).
  - intros e He. destruct (map_set_in m v n e Hnd He) as [[Hk Hn]|[Hin Hk]].
    + rewrite Hn, cnt_snoc. fold v.
      assert (Hs : sameValueZero (fst e) v = true) by (apply sameValueZero_key; exact Hk).
      rewrite Hs. split; [|unfold n; lia]. unfold n. f_equal.
      destruct (map_get m v) as [c|] eqn:G.
      * destruct (map_get_some m v c G) as (e0 & He0 & Hk0 & Hc0).
        rewrite <- Hc0. rewrite (proj1 (Hcnt e0 He0)). apply cnt_key.
        unfold K in Hk0, Hk. congruence.
      * symmetry. apply cnt_zero. intros p Hp Hpk.
        destruct (Hcov p Hp) as (e1 & He1 & Hk1).
        apply (map_get_none m v G e1 He1). unfold K in Hk. congruence.
    + rewrite cnt_snoc. fold v. rewrite (svz_false _ _ Hk). rewrite Nat.add_0_r. exact (Hcnt e Hin).
  - intros p Hp. apply in_app_or in Hp as [Hp|[<-|[]]].
    + destruct (Hcov p Hp) as (e & He & Hk).
      destruct (sameValueZero (fst e) v) eqn:Hkv.
      * apply sameValueZero_key in Hkv.
        destruct (map_set_has m v n) as (e' & He' & Hk'). exists e'. split; [exact He'|].
        unfold K in *. congruence.
      * exists e. split; [|exact Hk]. apply map_set_keeps; [exact He|].
        intros H. apply sameValueZero_key in H. congruence.
    + exact (map_set_has m v n).
  - pose proof (map_set_sum m v n) as Hs. rewrite length_app. simpl. unfold n in *. lia.
Qed.

Lemma counts_inv_fold : forall (pts : list SamplePoint) m ps,
  counts_inv m ps -> counts_inv (fold_left count_step pts m) (ps ++ pts).
Proof.
  induction pts as [|q pts IH]; intros m ps H; simpl.
  - rewrite app_nil_r. exact H.
  - replace (ps ++ q :: pts) with ((ps ++ [q]) ++ pts) by (rewrite <- app_assoc; reflexivity).
    apply IH. apply counts_inv_step. exact H.
Qed.

Lemma valueCounts_inv : forall data, counts_inv (valueCounts data) data.
Proof.
  intros data. change (valueCounts data) with (fold_left count_step data []).
  apply (counts_inv_fold data [] []).
  split; [constructor|]. split; [intros e []|]. split; [intros p []|reflexivity].
Qed.

Lemma insert_by_perm : forall {A} (cmp : A -> A -> float) x l, Permutation (insert_by cmp x l) (x :: l).
Proof.
  intros A cmp x l. induction l as [|h t IH]; simpl; [reflexivity|].
  destruct (0 <? cmp x h)%float; [|reflexivity].
  eapply perm_trans; [apply perm_skip; exact IH|apply perm_swap].
Qed.

Lemma sort_by_perm : forall {A} (cmp : A -> A -> float) l, Permutation (sort_by cmp l) l.
Proof.
  intros A cmp l. induction l as [|h t IH]; simpl; [reflexivity|].
  eapply perm_trans; [apply insert_by_perm|]. apply perm_skip. exact IH.
Qed.

Lemma counts_inv_perm : forall m m' ps ps',
  Permutation m m' -> Permutation ps ps' -> counts_inv m ps -> counts_inv m' ps'.
Proof.
  intros m m' ps ps' Hm Hps (Hnd & Hcnt & Hcov & Hsum).
  split; [|split; [|split]].
  - eapply Permutation_NoDup; [apply Permutation_map; exact Hm|exact Hnd].
  - intros e He. rewrite <- (cnt_perm ps ps' (fst e) Hps).
    apply Hcnt. eapply Permutation_in; [symmetry; exact Hm|exact He].
  - intros p Hp. destruct (Hcov p) as (e & He & Hk).
    + eapply Permutation_in; [symmetry; exact Hps|exact Hp].
    + exists e. split; [eapply Permutation_in; [exact Hm|exact He]|exact Hk].
  - rewrite <- (Permutation_length Hps), <- Hsum. symmetry.
    apply Permutation_list_sum. apply Permutation_map. exact Hm.
Qed.

Lemma filter_none : forall {A} (f : A -> bool) l, (forall x, In x l -> f x = false) -> filter f l = [].
Proof.
  intros A f l H. induction l as [|x l IH]; simpl; [reflexivity|].
  rewrite (H x (or_introl eq_refl)). apply IH. intros y Hy. apply H. right. exact Hy.
Qed.

Lemma one_match : forall h v e,
  NoDup (map K h) -> In e h -> K e = svkey v ->
  List.length (filter (fun e => sameValueZero (fst e) v) h) = 1%nat.
Proof.
  induction h as [|e0 h IH]; intros v e Hnd He Hk; [destruct He|].
  simpl in Hnd. inversion Hnd as [|? ? Hnin Hnd']; subst. simpl.
  destruct (sameValueZero (fst e0) v) eqn:E.
  - apply sameValueZero_key in E. simpl. rewrite filter_none; [reflexivity|].
    intros e' He'. apply svz_false. intros Hk'. apply Hnin.
    replace (K e0) with (K e') by (unfold K; congruence). apply in_map. exact He'.
  - destruct He as [<-|He].
    + exfalso. unfold K in Hk. apply sameValueZero_key in Hk. congruence.
    + exact (IH v e Hnd' He Hk).
Qed.

Lemma histogramData_inv : forall data, counts_inv (histogramData data) data.
Proof.
  intros data. unfold histogramData.
  eapply counts_inv_perm; [symmetry; apply sort_by_perm|apply sort_by_perm|].
  apply valueCounts_inv.
Qed.
End HistogramFacts.

(** [histogramData] counts every value class once: each point's value
    matches exactly one [[value, count]] entry under SameValueZero, each
    entry's count is the number of points matching its value (at least
    one), and the counts add up to the number of points. *)
Theorem histogramData_counts : forall data : list Statistics.SamplePoint,
  (forall p, In p data ->
     List.length (filter (fun e => ChartDraw.sameValueZero (fst e) (Statistics.svalue p)) (ChartDraw.histogramData data)) = 1%nat) /\
  (forall e, In e (ChartDraw.histogramData data) ->
     snd e = List.length (filter (fun p => ChartDraw.sameValueZero (fst e) (Statistics.svalue p)) data) /\
     (1 <= snd e)%nat) /\
  list_sum (map snd (ChartDraw.histogramData data)) = List.length data.
Proof.
  intros data. destruct (HistogramFacts.histogramData_inv data) as (Hnd & Hcnt & Hcov & Hsum).
  split; [|split; [exact Hcnt|exact Hsum]].
  intros p Hp. destruct (Hcov p Hp) as (e & He & Hk). exact (HistogramFacts.one_match _ _ e Hnd He Hk).
Qed.

Lemma histogramData_counts_witness :
  let data := [Statistics.mkSample 0 1%float; Statistics.mkSample 1000 2%float;
               Statistics.mkSample 2000 2%float] in
  List.length (filter (fun e => ChartDraw.sameValueZero (fst e) 2%float)
                 (ChartDraw.histogramData data)) = 1%nat /\
  list_sum (map snd (ChartDraw.histogramData data)) = 3%nat.
Proof.
  intros data. split.
  - exact (proj1 (histogramData_counts data) (Statistics.mkSample 1000 2%float)
             (or_intror (or_introl eq_refl))).
  - exact (proj2 (proj2 (histogramData_counts data))).
Defined.

(** [getDataAndDraw] stops before drawing when there is too little data:
    no series or an empty one throws [No data available], and a series
    that keeps at most one point after the [ignoreZero] filter throws
    [Not enough data available] with the mean of the kept points (NaN when
    none is kept), whatever the sampling budget. *)
Theorem getDataAndDraw_too_little_data :
  forall (maxArrayLength : Z) (fuel : nat) (data : option (list Statistics.SamplePoint)) (ignoreZero : bool),
    (data = None \/ data = Some [] ->
     ChartDraw.getDataAndDraw_until_draw maxArrayLength fuel data ignoreZero =
       ChartDraw.DrawThrown "No data available") /\
    (forall d, data = Some d -> d <> [] ->
     let kept := if ignoreZero then filter (fun p => negb (Statistics.svalue p =? 0)%float) d else d in
     (List.length kept <= 1)%nat ->
     ChartDraw.getDataAndDraw_until_draw maxArrayLength fuel data ignoreZero =
       ChartDraw.NotEnoughData (fst (Statistics.calculateStatistics kept))).
Proof.
  intros maxArrayLength fuel data ignoreZero. split.
  - intros [-> | ->]; reflexivity.
  - intros d -> Hne kept Hlen.
    assert (Hstat : Chart.getDataAndDraw_until_statistics (Some d) ignoreZero =
                    Chart.CalculateStatisticsOn kept)
      by (destruct d as [|p d']; [congruence|reflexivity]).
    unfold ChartDraw.getDataAndDraw_until_draw. rewrite Hstat.
    destruct (Statistics.calculateStatistics kept) as [mean sd] eqn:Hcs. simpl.
    unfold Statistics.generateNormalDistributionData.
    assert (Hsmall : (Js.of_nat (List.length kept) <=? 1)%float = true)
      by (destruct kept as [|a [|b t]]; [reflexivity|reflexivity|simpl in Hlen; lia]).
    rewrite Hsmall. reflexivity.
Qed.

Lemma getDataAndDraw_too_little_data_witness :
  ChartDraw.getDataAndDraw_until_draw 4294967295 10
    (Some [Statistics.mkSample 0 0%float; Statistics.mkSample 1000 2.5%float]) true =
  ChartDraw.NotEnoughData 2.5%float.
Proof.
  exact (proj2 (getDataAndDraw_too_little_data 4294967295 10
                  (Some [Statistics.mkSample 0 0%float; Statistics.mkSample 1000 2.5%float]) true)
           _ eq_refl ltac:(discriminate) ltac:(simpl; lia)).
Defined.

Module GridFacts.
Import Statistics Grid.
Local Open Scope float_scope.

Lemma sample_loop_grid :
  forall maxArrayLength fuel mean standardDeviation dataLength binSize x xValues yValues
         maxYDistrib xs ys m,
    sample_loop maxArrayLength fuel mean standardDeviation dataLength binSize x xValues yValues
      maxYDistrib = Finished (xs, ys, m) ->
    let f := fun x => normalDistribution x mean standardDeviation * dataLength * binSize in
    exists k,
      xs = (xValues ++ grid x binSize k)%list /\
      ys = (yValues ++ map f (grid x binSize k))%list /\
      m = running_max (map f (grid x binSize k)) maxYDistrib /\
      Forall (fun x => (x <=? mean + 5 * standardDeviation) = true) (grid x binSize k) /\
      (nth k (grid x binSize (S k)) 0 <=? mean + 5 * standardDeviation) = false.
Proof.
  intros maxL fuel mean sd n b.
  induction fuel as [|fuel IH]; intros x xV yV mx xs ys m H f; cbn [sample_loop] in H.
  - destruct (x <=? mean + 5 * sd) eqn:Hx; [discriminate|].
    inversion H; subst. exists O. simpl. rewrite !app_nil_r.
    split; [reflexivity|]. split; [reflexivity|]. split; [reflexivity|].
    split; [constructor|exact Hx].
  - destruct (x <=? mean + 5 * sd) eqn:Hx.
    + destruct (Z.of_nat (List.length xV) <? maxL)%Z; [|discriminate].
      destruct (Z.of_nat (List.length yV) <? maxL)%Z; [|discriminate].
      destruct (IH _ _ _ _ _ _ _ H) as (k & Hxs & Hys & Hm & Hall & Hlast).
      exists (S k). simpl. rewrite <- !app_assoc in *.
      split; [exact Hxs|]. split; [exact Hys|]. split; [exact Hm|].
      split; [constructor; assumption|exact Hlast].
    + inversion H; subst. exists O. simpl. rewrite !app_nil_r.
      split; [reflexivity|]. split; [reflexivity|]. split; [reflexivity|].
      split; [constructor|exact Hx].
Qed.

Lemma grid_length : forall x b k, List.length (grid x b k) = k.
Proof. intros x b k. revert x. induction k as [|k IH]; intros x; simpl; [reflexivity|]. rewrite IH. reflexivity. Qed.

Lemma combine_map : forall (xs : list float) (g : float -> float),
  combine xs (map g xs) = map (fun x => (x, g x)) xs.
Proof. induction xs as [|x xs IH]; intros g; simpl; [reflexivity|]. rewrite IH. reflexivity. Qed.
Lemma generate_grid :
  forall (maxArrayLength : Z) (fuel : nat) (mean standardDeviation dataLength binSize maxY : float)
         (normalData : list (float * float)),
    (dataLength <=? 1)%float = false ->
    Statistics.generateNormalDistributionData maxArrayLength fuel mean standardDeviation
      dataLength binSize maxY = Statistics.Finished normalData ->
    let f := fun x => (Statistics.normalDistribution x mean standardDeviation
                       * dataLength * binSize)%float in
    let xs := grid (mean - 5 * standardDeviation)%float binSize (List.length normalData) in
    let M := running_max (map f xs) 0%float in
    normalData = map (fun x => (x, (f x * (maxY / M))%float)) xs /\
    Forall (fun x => (x <=? mean + 5 * standardDeviation)%float = true) xs /\
    (nth (List.length normalData)
       (grid (mean - 5 * standardDeviation)%float binSize (S (List.length normalData))) 0%float
       <=? mean + 5 * standardDeviation)%float = false.
Proof.
  intros maxL fuel mean sd n b maxY nd Hn H f.
  unfold Statistics.generateNormalDistributionData in H. rewrite Hn in H.
  destruct (Statistics.sample_loop maxL fuel mean sd n b (mean - 5 * sd) [] [] 0)
    as [[[xs ys] m]| |] eqn:Hl; [|discriminate|discriminate].
  injection H as <-.
  destruct (sample_loop_grid _ _ _ _ _ _ _ _ _ _ _ _ _ Hl)
    as (k & Hxs & Hys & Hm & Hall & Hlast).
  simpl in Hxs, Hys. subst xs ys m.
  rewrite map_map, combine_map, length_map, grid_length.
  split; [reflexivity|]. split; assumption.
Qed.
End GridFacts.

(** When [generateNormalDistributionData] returns for [dataLength > 1],
    its points are the grid [mean - 5 sd], then [+ binSize] at each step,
    all within [mean + 5 sd], and the next grid point would have failed
    that test; each [y] is the density at [x] times [dataLength * binSize],
    scaled by [maxY] over the largest such value seen from 0 up. *)
Theorem generateNormalDistributionData_grid :
  forall (maxArrayLength : Z) (fuel : nat) (mean standardDeviation dataLength binSize maxY : float)
         (normalData : list (float * float)),
    (dataLength <=? 1)%float = false ->
    Statistics.generateNormalDistributionData maxArrayLength fuel mean standardDeviation
      dataLength binSize maxY = Statistics.Finished normalData ->
    let f := fun x => (Statistics.normalDistribution x mean standardDeviation
                       * dataLength * binSize)%float in
    let xs := Grid.grid (mean - 5 * standardDeviation)%float binSize (List.length normalData) in
    let M := Grid.running_max (map f xs) 0%float in
    normalData = map (fun x => (x, (f x * (maxY / M))%float)) xs /\
    Forall (fun x => (x <=? mean + 5 * standardDeviation)%float = true) xs /\
    (nth (List.length normalData)
       (Grid.grid (mean - 5 * standardDeviation)%float binSize (S (List.length normalData))) 0%float
       <=? mean + 5 * standardDeviation)%float = false.
Proof. exact GridFacts.generate_grid. Qed.

Lemma generateNormalDistributionData_grid_witness :
  let normalData :=
    match Statistics.generateNormalDistributionData 4294967295 100 0 1 10 0.5 4 with
    | Statistics.Finished nd => nd | _ => [] end in
  (10 <=? 1)%float = false /\
  Statistics.generateNormalDistributionData 4294967295 100 0 1 10 0.5 4 =
    Statistics.Finished normalData /\
  let f := fun x => (Statistics.normalDistribution x 0 1 * 10 * 0.5)%float in
  let xs := Grid.grid (0 - 5 * 1)%float 0.5 (List.length normalData) in
  let M := Grid.running_max (map f xs) 0%float in
  normalData = map (fun x => (x, (f x * (4 / M))%float)) xs /\
  Forall (fun x => (x <=? 0 + 5 * 1)%float = true) xs /\
  (nth (List.length normalData) (Grid.grid (0 - 5 * 1)%float 0.5 (S (List.length normalData))) 0%float
     <=? 0 + 5 * 1)%float = false.
Proof.
  intros normalData.
  assert (Hn : (10 <=? 1)%float = false) by reflexivity.
  assert (Hg : Statistics.generateNormalDistributionData 4294967295 100 0 1 10 0.5 4 =
                Statistics.Finished normalData)
    by (vm_compute; reflexivity).
  split; [exact Hn|]. split; [exact Hg|].
  exact (generateNormalDistributionData_grid 4294967295 100 0 1 10 0.5 4 normalData Hn Hg).
Defined.

(** When [getDataAndDraw] gets to drawing, the points it goes on with are
    the series read, after the [ignoreZero] filter: at least two of them;
    the statistics and the histogram are those of these points, and the
    fitted curve is not empty: its first [x] (the axis minimum [xMin]) is
    [mean - 5 sd] and every [x] (so the axis maximum [xMax]) is within
    [mean + 5 sd]. *)
Theorem getDataAndDraw_draw_range :
  forall (maxArrayLength : Z) (fuel : nat) (data : option (list Statistics.SamplePoint))
         (ignoreZero : bool) (mean sd maxY : float) (histogram : list (float * nat))
         (normalData : list (float * float)),
    ChartDraw.getDataAndDraw_until_draw maxArrayLength fuel data ignoreZero =
      ChartDraw.Draw mean sd histogram maxY normalData ->
    exists (d kept : list Statistics.SamplePoint),
      data = Some d /\
      kept = (if ignoreZero then filter (fun p => negb (Statistics.svalue p =? 0)%float) d else d) /\
      Chart.getDataAndDraw_until_statistics data ignoreZero = Chart.CalculateStatisticsOn kept /\
      (2 <= List.length kept)%nat /\
      Statistics.calculateStatistics kept = (mean, sd) /\
      histogram = ChartDraw.histogramData kept /\
      normalData <> [] /\
      fst (hd (0, 0)%float normalData) = (mean - 5 * sd)%float /\
      Forall (fun x => (x <=? mean + 5 * sd)%float = true) (map fst normalData).
Proof.
  intros maxL fuel data ignoreZero mean sd maxY hist nd H.
  unfold ChartDraw.getDataAndDraw_until_draw in H.
  destruct (Chart.getDataAndDraw_until_statistics data ignoreZero) as [msg|kept] eqn:Hst;
    [discriminate|].
  assert (Hd : exists d, data = Some d /\
            kept = (if ignoreZero then filter (fun p => negb (Statistics.svalue p =? 0)%float) d else d)).
  { destruct data as [[|p d]|]; simpl in Hst; try discriminate.
    exists (p :: d). split; [reflexivity|]. injection Hst as <-. reflexivity. }
  destruct Hd as (d & Hdata & Hkept).
  destruct (Statistics.calculateStatistics kept) as [mean' sd'] eqn:Hcs.
  destruct (Statistics.generateNormalDistributionData maxL fuel mean' sd'
              (Js.of_nat (List.length kept)) (sd' / 2)
              (ChartDraw.math_max (map (fun d => Js.of_nat (snd d)) (ChartDraw.histogramData kept))))
    as [nd'| |] eqn:Hg; [|discriminate|discriminate].
  destruct nd' as [|p nd'']; [discriminate|].
  injection H as <- <- <- <- <-.
  assert (Hlen : (2 <= List.length kept)%nat).
  { destruct kept as [|a [|b t]]; simpl; try lia;
      unfold Statistics.generateNormalDistributionData in Hg; vm_compute in Hg; discriminate. }
  assert (Hn : (Js.of_nat (List.length kept) <=? 1)%float = false).
  { unfold Statistics.generateNormalDistributionData in Hg.
    destruct (Js.of_nat (List.length kept) <=? 1)%float; [discriminate|reflexivity]. }
  destruct (GridFacts.generate_grid _ _ _ _ _ _ _ _ Hn Hg) as (Hnd & Hall & _).
  exists d, kept. split; [exact Hdata|]. split; [exact Hkept|]. split; [reflexivity|].
  split; [exact Hlen|]. split; [exact Hcs|]. split; [reflexivity|].
  split; [discriminate|].
  set (xs := Grid.grid (mean' - 5 * sd')%float (sd' / 2)%float (List.length (p :: nd''))) in *.
  assert (Hf : map fst (p :: nd'') = xs).
  { rewrite Hnd at 1. rewrite map_map. apply map_id. }
  rewrite Hf. split; [|exact Hall].
  change (fst p = (mean' - 5 * sd')%float).
  change (hd 0%float (map fst (p :: nd'')) = (mean' - 5 * sd')%float).
  rewrite Hf. reflexivity.
Qed.

Lemma getDataAndDraw_draw_range_witness :
  exists mean sd maxY histogram normalData,
    ChartDraw.getDataAndDraw_until_draw 4294967295 1000
      (Some [Statistics.mkSample 0 0%float; Statistics.mkSample 1000 2%float;
             Statistics.mkSample 2000 3%float]) true =
      ChartDraw.Draw mean sd histogram maxY normalData /\
    exists (d kept : list Statistics.SamplePoint),
      Some [Statistics.mkSample 0 0%float; Statistics.mkSample 1000 2%float;
            Statistics.mkSample 2000 3%float] = Some d /\
      kept = filter (fun p => negb (Statistics.svalue p =? 0)%float) d /\
      Chart.getDataAndDraw_until_statistics
        (Some [Statistics.mkSample 0 0%float; Statistics.mkSample 1000 2%float;
               Statistics.mkSample 2000 3%float]) true = Chart.CalculateStatisticsOn kept /\
      (2 <= List.length kept)%nat /\
      Statistics.calculateStatistics kept = (mean, sd) /\
      histogram = ChartDraw.histogramData kept /\
      normalData <> [] /\
      fst (hd (0, 0)%float normalData) = (mean - 5 * sd)%float /\
      Forall (fun x => (x <=? mean + 5 * sd)%float = true) (map fst normalData).
Proof.
  destruct (ChartDraw.getDataAndDraw_until_draw 4294967295 1000
      (Some [Statistics.mkSample 0 0%float; Statistics.mkSample 1000 2%float;
             Statistics.mkSample 2000 3%float]) true)
    as [msg|m| |mean sd histogram maxY normalData] eqn:E;
    [vm_compute in E; discriminate|vm_compute in E; discriminate|vm_compute in E; discriminate|].
  exists mean, sd, maxY, histogram, normalData. split; [reflexivity|].
  exact (getDataAndDraw_draw_range _ _ _ _ _ _ _ _ _ E).
Defined.

Module SourceFacts.
Import SourceResolution.

Lemma find_listed : forall (sources : list DataSource) id,
  (exists s, In s sources /\ ds_publicId s = id) <->
  find (fun source => String.eqb (ds_publicId source) id) sources <> None.
Proof.
  intros sources id. split.
  - intros (s & Hs & Hid). destruct (find _ sources) eqn:F; [discriminate|].
    pose proof (find_none _ _ F s Hs) as H. simpl in H. rewrite Hid, String.eqb_refl in H.
    discriminate.
  - destruct (find _ sources) as [s|] eqn:F; [|congruence]. intros _.
    apply find_some in F as [Hs Hid]. apply String.eqb_eq in Hid. exists s. auto.
Qed.
End SourceFacts.

(** The data source [getAllRawMetrics] reads is a non-empty id, taken
    from a tag with the metric's tag slug whose source is among the data
    sources found; and when such a tag exists and no tag has an empty
    source id, a data source is found (the method does not return null). *)
Theorem resolveSourceId_sound_complete :
  forall (sources : list SourceResolution.DataSource) (tags : list SourceResolution.Tag)
         (tagSlug : string),
    (forall id, SourceResolution.resolveSourceId sources tags tagSlug = Some id ->
       id <> EmptyString /\
       exists t s, In t tags /\ In s sources /\ SourceResolution.tag_slug t = tagSlug /\
                   SourceResolution.tag_sourceId t = id /\ SourceResolution.ds_publicId s = id) /\
    ((forall t, In t tags -> SourceResolution.tag_sourceId t <> EmptyString) ->
     (exists t s, In t tags /\ In s sources /\ SourceResolution.tag_slug t = tagSlug /\
                  SourceResolution.ds_publicId s = SourceResolution.tag_sourceId t) ->
     exists id, SourceResolution.resolveSourceId sources tags tagSlug = Some id).
Proof.
  intros sources tags tagSlug. unfold SourceResolution.resolveSourceId. split.
  - intros id H.
    destruct (find _ (filter _ tags)) as [x|] eqn:F; [|discriminate].
    destruct (String.eqb (SourceResolution.tag_sourceId x) EmptyString) eqn:He; [discriminate|].
    injection H as <-. split; [intros H; rewrite H in He; discriminate|].
    apply find_some in F as [Hx Hslug]. apply filter_In in Hx as [Hx Hlisted].
    apply String.eqb_eq in Hslug.
    destruct (find _ sources) as [s|] eqn:Fs; [|discriminate].
    apply find_some in Fs as [Hs Hid]. apply String.eqb_eq in Hid.
    exists x, s. auto 6.
  - intros Hne (t & s & Ht & Hs & Hslug & Hid).
    destruct (find _ (filter _ tags)) as [x|] eqn:F.
    + apply find_some in F as [Hx _]. apply filter_In in Hx as [Hx _].
      destruct (String.eqb (SourceResolution.tag_sourceId x) EmptyString) eqn:He.
      * apply String.eqb_eq in He. exfalso. exact (Hne x Hx He).
      * eexists. reflexivity.
    + assert (Hin : In t (filter (fun tag =>
                 match find (fun source => String.eqb (SourceResolution.ds_publicId source)
                                             (SourceResolution.tag_sourceId tag)) sources with
                 | Some _ => true
                 | None => false
                 end) tags)).
      { apply filter_In. split; [exact Ht|].
        destruct (find _ sources) eqn:Fs; [reflexivity|].
        exfalso. apply (proj1 (SourceFacts.find_listed sources _) (ex_intro _ s (conj Hs Hid))).
        exact Fs. }
      pose proof (find_none _ _ F t Hin) as H. simpl in H.
      rewrite Hslug, String.eqb_refl in H. discriminate.
Qed.

Lemma resolveSourceId_sound_complete_witness :
  let sources := [SourceResolution.mkDataSource "a1" "src-1" "plc1"] in
  let tags := [SourceResolution.mkTag "a1" "src-9" "temperature";
               SourceResolution.mkTag "a1" "src-1" "temperature"] in
  (forall t, In t tags -> SourceResolution.tag_sourceId t <> EmptyString) /\
  (exists t s, In t tags /\ In s sources /\ SourceResolution.tag_slug t = "temperature"%string /\
               SourceResolution.ds_publicId s = SourceResolution.tag_sourceId t) /\
  exists id, SourceResolution.resolveSourceId sources tags "temperature" = Some id.
Proof.
  intros sources tags.
  assert (Hne : forall t, In t tags -> SourceResolution.tag_sourceId t <> EmptyString)
    by (intros t [<-|[<-|[]]]; discriminate).
  assert (Hex : exists t s, In t tags /\ In s sources /\
                  SourceResolution.tag_slug t = "temperature"%string /\
                  SourceResolution.ds_publicId s = SourceResolution.tag_sourceId t).
  { exists (SourceResolution.mkTag "a1" "src-1" "temperature"),
      (SourceResolution.mkDataSource "a1" "src-1" "plc1").
    split; [right; left; reflexivity|]. split; [left; reflexivity|]. split; reflexivity. }
  split; [exact Hne|]. split; [exact Hex|].
  exact (proj2 (resolveSourceId_sound_complete sources tags "temperature") Hne Hex).
Defined.
